(** * fleet-rest-skeleton: request dispatcher, routing, configuration and
      process lifecycle

    A shallow embedding of the Go sources of the service

    - [pkg/api/routes]: [wrapAPICall], [composeAppLogging],
      [ComposeHTTPServer], the handlers [apiEcho] and [apiError];
    - [internal/metrics]: [APICallEpilog];
    - [internal/app]: [NewOption], [NewApp], [LoadConfiguration],
      [envVarOverrides];
    - [cmd/server]: the [Run] function of [serverCmd];

    together with the part of the gin framework those functions drive
    (the response writer, [Context.JSON], [Context.BindJSON], the handler
    chain and the router's dispatch).  Go maps [map[string]any] are
    [gmap string any]; a nil map is [None]. *)

From Stdlib Require Import ZArith Lia Ascii String.
From stdpp Require Import base option list strings gmap fin_maps pretty.

Set Default Proof Using "Type".
Set Warnings "-register-all".
Open Scope Z_scope.

(** ** Go values and errors *)

(** The dynamic values a [map[string]any] holds after JSON decoding:
    [nil], [bool], [float64] (its IEEE-754 bit pattern), [string],
    [[]any] and [map[string]any]; and [time.Time], which the liveness
    endpoint puts into its answer. *)
Inductive any : Type :=
| ANil
| ABool (b : bool)
| AFloat64 (bits : Z)
| AString (s : string)
| ASlice (l : list any)
| AMap (m : gmap string any)
| ATime (t : Z).

(** Go [error] values.  [New] is [errors.New]; [Wrap] is
    [errors.Wrap(cause, msg)] of github.com/pkg/errors; the two sentinels
    are [http.ErrServerClosed] and [context.DeadlineExceeded], which
    [errors.Is] recognises by identity, not by text. *)
Inductive error : Type :=
| New (msg : string)
| Wrap (cause : error) (msg : string)
| ErrServerClosed
| DeadlineExceeded.

Module errors.

(** [err.Error()] *)
Fixpoint Error (e : error) : string :=
  match e with
  | New msg => msg
  | Wrap cause msg => msg +:+ ": " +:+ Error cause
  | ErrServerClosed => "http: Server closed"
  | DeadlineExceeded => "context deadline exceeded"
  end.

(** [errors.Is(err, http.ErrServerClosed)]: walks the chain of causes. *)
Fixpoint IsServerClosed (e : error) : bool :=
  match e with
  | ErrServerClosed => true
  | Wrap cause _ => IsServerClosed cause
  | New _ | DeadlineExceeded => false
  end.

End errors.

(** A Go map value that may be nil, rendered as a JSON document:
    a nil map encodes as [null]. *)
Definition ofMap (o : option (gmap string any)) : any :=
  match o with
  | Some m => AMap m
  | None => ANil
  end.

(** ** HTTP status codes used by the service *)

Module http.
Definition StatusOK : Z := 200.
Definition StatusMovedPermanently : Z := 301.
Definition StatusTemporaryRedirect : Z := 307.
Definition StatusBadRequest : Z := 400.
Definition StatusNotFound : Z := 404.
Definition StatusInternalServerError : Z := 500.
End http.

(** ** The gin framework, as far as the service drives it *)

Module gin.

Record Request := mkRequest {
  Method : string;
  Path : string;       (* Request.URL.Path *)
  RawQuery : string;   (* Request.URL.RawQuery *)
  Body : string
}.

(** gin's [responseWriter]: the status to send, whether the header has
    gone out already ([size != noWritten]), the [Location] header of a
    redirect, and the JSON documents written to the body, in order. *)
Record ResponseWriter := mkWriter {
  status : Z;
  written : bool;
  location : option string;
  body : list any
}.

Record Context := mkContext {
  Req : Request;
  Writer : ResponseWriter;
  Errors : list error;
  aborted : bool       (* index >= abortIndex *)
}.

(** A context as the engine hands it to the first handler:
    [defaultStatus = 200], nothing written. *)
Definition fresh (r : Request) : Context :=
  mkContext r (mkWriter http.StatusOK false None []) [] false.

Definition withWriter (c : Context) (w : ResponseWriter) : Context :=
  mkContext (Req c) w (Errors c) (aborted c).

(** [responseWriter.WriteHeader]: once the header is out, a different
    code is only warned about and dropped. *)
Definition WriteHeader (code : Z) (w : ResponseWriter) : ResponseWriter :=
  if (0 <? code) && negb (status w =? code) then
    if written w then w
    else mkWriter code (written w) (location w) (body w)
  else w.

Definition WriteHeaderNow (w : ResponseWriter) : ResponseWriter :=
  if written w then w
  else mkWriter (status w) true (location w) (body w).

(** [responseWriter.Write]: sends the header first if needed. *)
Definition Write (doc : any) (w : ResponseWriter) : ResponseWriter :=
  let w := WriteHeaderNow w in
  mkWriter (status w) (written w) (location w) (body w ++ [doc]).

(** [c.Status(code)] *)
Definition Status (code : Z) (c : Context) : Context :=
  withWriter c (WriteHeader code (Writer c)).

(** [c.Abort()] *)
Definition Abort (c : Context) : Context :=
  mkContext (Req c) (Writer c) (Errors c) true.

(** [c.Error(err)] *)
Definition PushError (err : error) (c : Context) : Context :=
  mkContext (Req c) (Writer c) (Errors c ++ [err]) (aborted c).

(** [c.AbortWithStatus(code)] *)
Definition AbortWithStatus (code : Z) (c : Context) : Context :=
  let c := Status code c in
  let c := withWriter c (WriteHeaderNow (Writer c)) in
  Abort c.

(** [c.AbortWithError(code, err)] *)
Definition AbortWithError (code : Z) (err : error) (c : Context) : Context :=
  PushError err (AbortWithStatus code c).

Definition bodyAllowedForStatus (code : Z) : bool :=
  if (100 <=? code) && (code <=? 199) then false
  else if code =? 204 then false
  else if code =? 304 then false
  else true.

(** [c.JSON(code, obj)]: [obj] is already the document to encode; the
    values of [any] all encode, so rendering does not fail. *)
Definition JSON (code : Z) (obj : any) (c : Context) : Context :=
  let c := Status code c in
  if bodyAllowedForStatus code then withWriter c (Write obj (Writer c))
  else withWriter c (WriteHeaderNow (Writer c)).

(** A handler runs over the request context and the state [W] of the
    rest of the process.  [Leaf] bodies never call [c.Next()]; an
    [Around] body receives [c.Next] as its first argument and calls it
    once, as [composeAppLogging] and [gin.Recovery] do. *)
Inductive HandlerFunc (W : Type) : Type :=
| Leaf (body : Context * W -> Context * W)
| Around (body : (Context * W -> Context * W) -> Context * W -> Context * W).
Arguments Leaf {W} body.
Arguments Around {W} body.

(** [c.Next()] over the handlers that are still to run: an aborted
    context runs none of them. *)
Fixpoint Next {W : Type} (hs : list (HandlerFunc W)) (s : Context * W)
  : Context * W :=
  match hs with
  | [] => s
  | h :: rest =>
      if aborted (fst s) then s
      else match h with
           | Leaf body => Next rest (body s)
           | Around body => body (Next rest) s
           end
  end.

(** [gin.Recovery()]: the bodies modelled here do not panic, so it only
    passes control on. *)
Definition Recovery {W : Type} : HandlerFunc W :=
  Around (fun next s => next s).

(** *** The engine and its router *)

(** A registered route: its method tree, its path, and the handlers it
    runs (the group's middleware followed by the route's own). *)
Record Route (W : Type) := mkRoute {
  method : string;
  path : string;
  handlers : list (HandlerFunc W)
}.
Arguments mkRoute {W} _ _ _.
Arguments method {W} _.
Arguments path {W} _.
Arguments handlers {W} _.

Record Engine (W : Type) := mkEngine {
  Handlers : list (HandlerFunc W);      (* the root group's middleware *)
  noRoute : list (HandlerFunc W);
  allNoRoute : list (HandlerFunc W);
  trees : list (Route W);
  RedirectTrailingSlash : bool
}.
Arguments mkEngine {W} _ _ _ _ _.
Arguments Handlers {W} _.
Arguments noRoute {W} _.
Arguments allNoRoute {W} _.
Arguments trees {W} _.
Arguments RedirectTrailingSlash {W} _.

(** [gin.New()]: no middleware, no routes, trailing-slash redirection
    switched on. *)
Definition New {W : Type} : Engine W := mkEngine [] [] [] [] true.

(** [engine.Use(middleware...)], which also rebuilds the 404 chain. *)
Definition Use {W : Type} (ms : list (HandlerFunc W)) (e : Engine W) : Engine W :=
  let hs := Handlers e ++ ms in
  mkEngine hs (noRoute e) (hs ++ noRoute e) (trees e) (RedirectTrailingSlash e).

(** [engine.NoRoute(handlers...)] *)
Definition NoRoute {W : Type} (hs : list (HandlerFunc W)) (e : Engine W) : Engine W :=
  mkEngine (Handlers e) hs (Handlers e ++ hs) (trees e) (RedirectTrailingSlash e).

(** [engine.Handle(method, path, handlers...)]: the route gets the
    middleware registered so far in front of its own handlers. *)
Definition Handle {W : Type} (m p : string) (hs : list (HandlerFunc W))
    (e : Engine W) : Engine W :=
  mkEngine (Handlers e) (noRoute e) (allNoRoute e)
           (trees e ++ [mkRoute m p (Handlers e ++ hs)])
           (RedirectTrailingSlash e).

Definition GET {W : Type} := @Handle W "GET".
Definition POST {W : Type} := @Handle W "POST".

Definition endsWithSlash (p : string) : bool :=
  match String.get (String.length p - 1)%nat p with
  | Some c => bool_decide (c = "/"%char)
  | None => false
  end.

Definition dropLast (p : string) : string :=
  String.substring 0 (String.length p - 1)%nat p.

(** What the router finds for a method and a path.  All routes of this
    service are static paths, for which [getValue] gives the handlers
    of the exact path, or else recommends a trailing-slash redirect
    ([tsr]) when the path with the final slash added or removed is
    registered in the same method tree. *)
Inductive Lookup (W : Type) : Type :=
| Found (hs : list (HandlerFunc W))
| Redirect (to : string)
| NotFound.
Arguments Found {W} hs.
Arguments Redirect {W} to.
Arguments NotFound {W}.

Definition registered {W : Type} (e : Engine W) (m p : string)
  : option (list (HandlerFunc W)) :=
  handlers <$> List.find (fun r => bool_decide (method r = m /\ path r = p)) (trees e).

Definition toggleSlash (p : string) : string :=
  if endsWithSlash p then dropLast p else p +:+ "/".

Definition lookup {W : Type} (e : Engine W) (r : Request) : Lookup W :=
  match registered e (Method r) (Path r) with
  | Some hs => Found hs
  | None =>
      if bool_decide (Method r <> "CONNECT") && bool_decide (Path r <> "/")
         && RedirectTrailingSlash e
         && bool_decide (is_Some (registered e (Method r) (toggleSlash (Path r))))
      then Redirect (toggleSlash (Path r))
      else NotFound
  end.

(** [redirectRequest]: 301 for GET, 307 for the other methods, with the
    [Location] header; the note [http.Redirect] adds to the body of a
    GET is left out. *)
Definition redirectRequest (to : string) (c : Context) : Context :=
  let code := if bool_decide (Method (Req c) = "GET")
              then http.StatusMovedPermanently
              else http.StatusTemporaryRedirect in
  let w := WriteHeader code (Writer c) in
  let w := mkWriter (status w) (written w) (Some to) (body w) in
  withWriter c (WriteHeaderNow w).

Definition default404Body : any := AString "404 page not found".

(** [serveError(c, code, defaultMessage)] *)
Definition serveError {W : Type} (code : Z) (defaultMessage : any)
    (hs : list (HandlerFunc W)) (s : Context * W) : Context * W :=
  let '(c, w) := s in
  let c := withWriter c (mkWriter code (written (Writer c))
                                  (location (Writer c)) (body (Writer c))) in
  let '(c, w) := Next hs (c, w) in
  if written (Writer c) then (c, w)
  else if status (Writer c) =? code
       then (withWriter c (Write defaultMessage (Writer c)), w)
       else (withWriter c (WriteHeaderNow (Writer c)), w).

(** [engine.handleHTTPRequest(c)] on a fresh context for [r]. *)
Definition handleHTTPRequest {W : Type} (e : Engine W) (r : Request) (w : W)
  : Context * W :=
  let c := fresh r in
  match lookup e r with
  | Found hs =>
      let '(c, w) := Next hs (c, w) in
      (withWriter c (WriteHeaderNow (Writer c)), w)
  | Redirect to => (redirectRequest to c, w)
  | NotFound => serveError http.StatusNotFound default404Body (allNoRoute e) (c, w)
  end.

End gin.

(** ** Process state shared by all requests *)

Module zap.

Inductive Level := InfoLevel | ErrorLevel | FatalLevel.

(** [zap.String], [zap.Int], [zap.Time], [zap.Strings], [zap.Error] *)
Inductive Field :=
| FString (key val : string)
| FInt (key : string) (val : Z)
| FTime (key : string) (val : Z)
| FStrings (key : string) (val : list string)
| FError (err : error).

Record Entry := mkEntry {
  level : Level;
  message : string;
  fields : list Field
}.

End zap.

(** One sample of the [apiLatencySeconds] histogram vector: its two
    labels and the observed duration (in clock units). *)
Record Sample := mkSample {
  endpoint : string;
  response_code : string;
  elapsed : Z
}.

(** What a request handler can touch besides its own context: the wall
    clock (the successive readings [time.Now()] will return), the global
    latency histogram, the logger's output, and the inputs on which the
    domain handler has been called so far (a record of each call
    [fn(m)]). *)
Record World := mkWorld {
  clock : list Z;
  apiLatencySeconds : list Sample;
  logged : list zap.Entry;
  invoked : list (gmap string any)
}.

Module time.

(** [time.Second], in nanoseconds. *)
Definition Second : Z := 1000000000.

(** [time.Now()]: takes the next reading of the clock. *)
Definition Now (w : World) : Z * World :=
  (hd 0 (clock w),
   mkWorld (tl (clock w)) (apiLatencySeconds w) (logged w) (invoked w)).

End time.

Definition log (e : zap.Entry) (w : World) : World :=
  mkWorld (clock w) (apiLatencySeconds w) (logged w ++ [e]) (invoked w).

Definition recordCall (m : gmap string any) (w : World) : World :=
  mkWorld (clock w) (apiLatencySeconds w) (logged w) (invoked w ++ [m]).

Module metrics.

(** [apiLatencySeconds.WithLabelValues(endpoint, code).Observe(elapsed)] *)
Definition Observe (endpoint code : string) (elapsed : Z) (w : World) : World :=
  mkWorld (clock w)
          (apiLatencySeconds w ++ [mkSample endpoint code elapsed])
          (logged w) (invoked w).

(** [APICallEpilog]: [strconv.Itoa] of the code, [time.Since(start)],
    one observation. *)
Definition APICallEpilog (start : Z) (endpoint : string) (responseCode : Z)
    (w : World) : World :=
  let code := pretty responseCode in
  let '(t, w) := time.Now w in
  let elapsed := t - start in
  Observe endpoint code elapsed w.


End metrics.

(** ** pkg/api/routes *)

(** [type apiHandler func(map[string]any) (map[string]any, error)] *)
Definition apiHandler : Type :=
  gmap string any -> option (gmap string any) * option error.

(** [apiEcho], with the order in which [range m] visits the entries made
    explicit: Go leaves it unspecified, so [order] is any enumeration of
    the entries of [m]. *)
Definition apiEchoIn (order : list (string * any)) : option (gmap string any) * option error :=
  let rm := foldl (fun (rm : gmap string any) kv => <[kv.1 := kv.2]> rm) ∅ order in
  (Some rm, None).

(** [apiEcho] under the enumeration [map_to_list] fixes. *)
Definition apiEcho : apiHandler :=
  fun m => apiEchoIn (map_to_list m).

Definition apiError : apiHandler :=
  fun _ => (None, Some (New "bad times")).

Section Routes.

(** The JSON decoder behind [ctx.BindJSON(&m)] (encoding/json through
    gin's binding): the decoded object, or the decode failure. *)
Variable decodeJSON : string -> gmap string any + error.

(** [ctx.BindJSON(&m)]: a decoded object is stored into the map [m]
    points to; a failure aborts the context with status 400, records
    the error on it, and leaves [m] as it was. *)
Definition BindJSON (m : gmap string any) (ctx : gin.Context)
  : gmap string any * option error * gin.Context :=
  match decodeJSON (gin.Body (gin.Req ctx)) with
  | inl decoded => (decoded ∪ m, None, ctx)
  | inr err => (m, Some err, gin.AbortWithError http.StatusBadRequest err ctx)
  end.

Definition errorBody (err : error) : gmap string any :=
  {[ "error" := AString (errors.Error err) ]}.

Definition wrapAPICall (fn : apiHandler) : gin.HandlerFunc World :=
  gin.Leaf (fun '(ctx, w) =>
    let m : gmap string any := ∅ in
    let '(m, err, ctx) := BindJSON m ctx in
    let ctx :=
      match err with
      | Some err => gin.JSON http.StatusBadRequest (AMap (errorBody err)) ctx
      | None => ctx
      end in
    let '(obj, err) := fn m in
    let w := recordCall m w in
    let '(responseCode, obj) :=
      match err with
      | None => (http.StatusOK, obj)
      | Some err => (http.StatusInternalServerError, Some (errorBody err))
      end in
    (gin.JSON responseCode (ofMap obj) ctx, w)).

Definition composeAppLogging : gin.HandlerFunc World :=
  gin.Around (fun Next '(c, w) =>
    let '(start, w) := time.Now w in
    let path := gin.Path (gin.Req c) in
    let query := gin.RawQuery (gin.Req c) in
    let '(c, w) := Next (c, w) in
    let code := gin.status (gin.Writer c) in
    let w := metrics.APICallEpilog start path code w in
    let fields := [ zap.FString "path" path;
                    zap.FString "query" query;
                    zap.FInt "status-code" code;
                    zap.FTime "start" start ] in
    if bool_decide (0 < length (gin.Errors c))%nat then
      let fields := fields ++ [zap.FStrings "errors" (errors.Error <$> gin.Errors c)] in
      (c, log (zap.mkEntry zap.ErrorLevel "errors on API request" fields) w)
    else
      (c, log (zap.mkEntry zap.InfoLevel "api call complete" fields) w)).

End Routes.

(** ** The process: events, exit, panics *)

(** What the process does that an operator can observe, in order. *)
Inductive Event :=
| Fatalf (msg : string)                 (* log.Fatalf: print, then os.Exit(1) *)
| Logged (e : zap.Entry)                (* a line of the zap logger *)
| SignalNotify                          (* signal.Notify(termChan, SIGINT, SIGTERM) *)
| MetricsListenAndServe
| InitOpenTelemetry
| GoListenAndServe (addr : string)      (* go func() { srv.ListenAndServe() ... }() *)
| WaitForSignal
| AppCancel
| Shutdown (timeout : Z)                (* srv.Shutdown(ctx) under the timeout *)
| OtelShutdown
| CancelTimeout                         (* deferred cancel() *)
| LoggerSync.                           (* deferred logger.Sync() *)

Inductive Outcome (A : Type) : Type :=
| Ret (a : A)
| Exit (code : Z)                       (* os.Exit(code) *)
| Panic (msg : string)
| Blocked.                              (* waits for what never comes *)
Arguments Ret {A} a.
Arguments Exit {A} code.
Arguments Panic {A} msg.
Arguments Blocked {A}.

(** A computation of the process: the events it emits and how it ends. *)
Definition Proc (A : Type) : Type := list Event * Outcome A.

Definition ret {A : Type} (a : A) : Proc A := ([], Ret a).

Definition bind {A B : Type} (p : Proc A) (k : A -> Proc B) : Proc B :=
  match p with
  | (evs, Ret a) => let '(evs', o) := k a in (evs ++ evs', o)
  | (evs, Exit code) => (evs, Exit code)
  | (evs, Panic msg) => (evs, Panic msg)
  | (evs, Blocked) => (evs, Blocked)
  end.

Definition emit (e : Event) : Proc unit := ([e], Ret tt).

Notation "x <- p ;; k" := (bind p (fun x => k))
  (at level 100, p at next level, right associativity).
Notation "p ;;; k" := (bind p (fun _ => k))
  (at level 100, right associativity).

(** [logger.Info] and [logger.Fatal]; zap's Fatal writes the entry and
    then calls [os.Exit(1)]. *)
Definition Info (msg : string) (fields : list zap.Field) : Proc unit :=
  emit (Logged (zap.mkEntry zap.InfoLevel msg fields)).

Definition Fatal {A : Type} (msg : string) (fields : list zap.Field) : Proc A :=
  ([Logged (zap.mkEntry zap.FatalLevel msg fields)], Exit 1).

(** *** Two goroutines

    The main goroutine [m] and a goroutine [g] it has started run side by
    side; each is the list of events it still has to emit and the way it
    ends.  The schedule says whose turn it is: [true] lets the main
    goroutine take its next step, [false] the other one.  The process is
    over when the main goroutine ends (its function returns, or it leaves
    through [os.Exit] or a panic) or when the other goroutine leaves
    through [os.Exit] or a panic; a goroutine that is blocked lets its
    turn pass; a goroutine that has returned leaves the main goroutine
    alone. *)

(** The schedule has no more to say: the main goroutine runs to its end
    undisturbed, and if it is blocked for good the other goroutine does. *)
Definition unscheduled (m g : Proc unit) : Proc unit :=
  match m with
  | (evs, Blocked) =>
      match g with
      | (gevs, Exit code) => (evs ++ gevs, Exit code)
      | (gevs, Panic msg) => (evs ++ gevs, Panic msg)
      | (gevs, _) => (evs ++ gevs, Blocked)
      end
  | _ => m
  end.

Fixpoint interleave (sched : list bool) (m g : Proc unit) : Proc unit :=
  match sched with
  | [] => unscheduled m g
  | true :: sched =>
      match m with
      | (e :: es, o) => let '(evs, r) := interleave sched (es, o) g in (e :: evs, r)
      | ([], Blocked) => interleave sched m g
      | ([], o) => ([], o)
      end
  | false :: sched =>
      match g with
      | (e :: es, o) => let '(evs, r) := interleave sched m (es, o) in (e :: evs, r)
      | ([], Exit code) => ([], Exit code)
      | ([], Panic msg) => ([], Panic msg)
      | ([], Ret _) => m
      | ([], Blocked) => interleave sched m g
      end
  end.

(** ** internal/version *)

Module version.

Record Version := mkVersion {
  GitCommit : string;
  GitBranch : string;
  GitSummary : string;
  BuildDate : string;
  AppVersion : string;
  GoVersion : string
}.

(** The [String] method of [Version] *)
Definition String (v : Version) : string :=
  "version=" +:+ AppVersion v +:+ " ref=" +:+ GitCommit v
  +:+ " branch=" +:+ GitBranch v +:+ " built=" +:+ BuildDate v.

(** The JSON document of a [Version], by its field tags. *)
Definition toJSON (v : Version) : any :=
  AMap (<["git_commit" := AString (GitCommit v)]>
        (<["git_branch" := AString (GitBranch v)]>
        (<["git_summary" := AString (GitSummary v)]>
        (<["build_date" := AString (BuildDate v)]>
        (<["app_version" := AString (AppVersion v)]>
        (<["go_version" := AString (GoVersion v)]> ∅)))))).

End version.

(** ** internal/app *)

Module app.

Definition AppName : string := "skeleton".

(** [ginjwt.AuthConfig], by the fields a deployment sets. *)
Record AuthConfig := mkAuthConfig {
  Enabled : bool;
  Audience : string;
  Issuer : string;
  JWKSURI : string
}.

Record Configuration := mkConfiguration {
  ListenAddress : string;
  DeveloperMode : bool;
  JWTAuth : list AuthConfig
}.

(** The zap logger [GetLogger] builds: development or production. *)
Record Logger := mkLogger { development : bool }.

Definition GetLogger (dev : bool) : Logger := mkLogger dev.

(** A [context.Context], by what [ctx.Err()] returns. *)
Record GoContext := mkGoContext { Err : option error }.

Record App := mkApp {
  Log : Logger;
  Cfg : Configuration;
  ctx : GoContext;
  term : list string;                 (* the signals buffered in the channel *)
  opts : option (gmap string any)     (* nil until something makes the map *)
}.

(** [type Option func(a *App)]: it updates the App it is given, or
    panics. *)
Definition Option : Type := App -> Outcome App.

(** [NewOption]: [a.opts[key] = opt]; assigning into a nil map is a
    run-time panic. *)
Definition NewOption (key : string) (opt : any) : Option :=
  fun a =>
    match opts a with
    | None => Panic "assignment to entry in nil map"
    | Some m => Ret (mkApp (Log a) (Cfg a) (ctx a) (term a) (Some (<[key := opt]> m)))
    end.

(** [for _, opt := range opts { opt(app) }] *)
Fixpoint applyOptions (os : list Option) (a : App) : Outcome App :=
  match os with
  | [] => Ret a
  | opt :: rest =>
      match opt a with
      | Ret a' => applyOptions rest a'
      | Exit code => Exit code
      | Panic msg => Panic msg
      | Blocked => Blocked
      end
  end.

Definition NewApp (ctx : GoContext) (cfg : Configuration) (log : Logger)
    (os : list Option) : Proc App :=
  let termChan : list string := [] in
  emit SignalNotify ;;;
  let app := mkApp log cfg ctx termChan None in
  ([], applyOptions os app).

(** The [ContextDone] method of [App] *)
Definition ContextDone (a : App) : bool :=
  bool_decide (Err (ctx a) <> None).

(** Where the configuration comes from: the file system and viper with
    the process environment behind it.  [Open] is [os.Open] followed by
    the read of the file; the other fields are viper's methods on the
    contents read. *)
Record Host := mkHost {
  Open : string -> string + error;
  ReadConfig : string -> option error;
  Unmarshal : string -> Configuration + error;
  GetString : string -> string -> string;
  GetBool : string -> string -> bool
}.

(** [envVarOverrides]: the configuration as the function leaves it, and
    the error it returns. *)
Definition envVarOverrides (getString : string -> string)
    (getBool : string -> bool) (cfg : Configuration)
  : Configuration * option error :=
  let addr := getString "listen.address" in
  let cfg := if bool_decide (addr <> EmptyString)
             then mkConfiguration addr (DeveloperMode cfg) (JWTAuth cfg)
             else cfg in
  let cfg := if getBool "developer.mode"
             then mkConfiguration (ListenAddress cfg) true (JWTAuth cfg)
             else cfg in
  if bool_decide (ListenAddress cfg = EmptyString)
  then (cfg, Some (New "no listen address set"))
  else (cfg, None).

Definition LoadConfiguration (h : Host) (cfgFile : string)
  : Configuration + error :=
  match Open h cfgFile with
  | inr err => inr (Wrap err ("opening config file " +:+ cfgFile))
  | inl fh =>
      match ReadConfig h fh with
      | Some err => inr (Wrap err ("reading config " +:+ cfgFile))
      | None =>
          match Unmarshal h fh with
          | inr err => inr (Wrap err "unmarshaling config")
          | inl cfg =>
              match envVarOverrides (GetString h fh) (GetBool h fh) cfg with
              | (_, Some err) => inr (Wrap err "configuring environment orverrides")
              | (cfg, None) => inl cfg
              end
          end
      end
  end.

End app.

(** ** pkg/api/routes: the server *)

Definition readTimeout : Z := 10 * time.Second.
Definition writeTimeout : Z := 20 * time.Second.

(** [http.Server], by the fields [ComposeHTTPServer] sets;
    [releaseMode] records the call [gin.SetMode(gin.ReleaseMode)]. *)
Record Server := mkServer {
  Addr : string;
  Handler : gin.Engine World;
  ReadTimeout : Z;
  WriteTimeout : Z;
  releaseMode : bool
}.

(** A [ginauth.MultiTokenMiddleware], by its method [AuthRequired]: the
    handler it gives for a list of scopes acts on the request context. *)
Definition MultiTokenMiddleware : Type := list string -> gin.Context -> gin.Context.

Definition ginNoOp : gin.HandlerFunc World := gin.Leaf (fun s => s).

Definition composeAuthHandler (authMiddleWare : option MultiTokenMiddleware)
    (scopes : list string) : gin.HandlerFunc World :=
  match authMiddleWare with
  | None => ginNoOp
  | Some mw => gin.Leaf (fun '(c, w) => (mw scopes c, w))
  end.

Definition createScopes (items : list string) : list string :=
  foldl (fun s i => s ++ ["create:" +:+ i]) ["write"; "create"] items.

Definition notFoundBody : gmap string any :=
  {[ "message" := AString "invalid request - route not found" ]}.

(** The function literal given to [g.NoRoute]. *)
Definition noRouteHandler : gin.HandlerFunc World :=
  gin.Leaf (fun '(c, w) => (gin.JSON http.StatusNotFound (AMap notFoundBody) c, w)).

(** The function literal given to [g.GET("/_health/liveness", ...)]. *)
Definition livenessHandler : gin.HandlerFunc World :=
  gin.Leaf (fun '(c, w) =>
    let '(t, w) := time.Now w in
    (gin.JSON http.StatusOK (AMap {[ "time" := ATime t ]}) c, w)).

Section Service.

Variable decodeJSON : string -> gmap string any + error.

(** [ginjwt.NewMultiTokenMiddlewareFromConfigs] *)
Variable NewMultiTokenMiddlewareFromConfigs :
  list app.AuthConfig -> MultiTokenMiddleware + error.

(** The version strings the linker put into [internal/version]. *)
Variable build : version.Version.

(** The function literal given to [g.GET("/api/version", ...)]. *)
Definition versionHandler : gin.HandlerFunc World :=
  gin.Leaf (fun '(c, w) => (gin.JSON http.StatusOK (version.toJSON build) c, w)).

(** [ComposeHTTPServer]; the package variable [authMiddleWare] starts
    out nil. *)
Definition ComposeHTTPServer (a : app.App) : Proc Server :=
  authMiddleWare <-
    (if bool_decide (length (app.JWTAuth (app.Cfg a)) <> 0%nat) then
       match NewMultiTokenMiddlewareFromConfigs (app.JWTAuth (app.Cfg a)) with
       | inr err => Fatal "failed to initialize auth middleware" [zap.FError err]
       | inl mw => ret (Some mw)
       end
     else ret None) ;;
  let g := gin.New in
  let release := negb (app.DeveloperMode (app.Cfg a)) in
  let g := gin.Use [composeAppLogging; gin.Recovery] g in
  let g := gin.NoRoute [noRouteHandler] g in
  let g := gin.GET "/_health/liveness" [livenessHandler] g in
  let g := gin.GET "/api/version" [versionHandler] g in
  let g := gin.POST "/api/echo"
             [composeAuthHandler authMiddleWare (createScopes ["response"]);
              wrapAPICall decodeJSON apiEcho] g in
  let g := gin.POST "/api/error"
             [composeAuthHandler authMiddleWare (createScopes ["response"]);
              wrapAPICall decodeJSON apiError] g in
  ret (mkServer (app.ListenAddress (app.Cfg a)) g readTimeout writeTimeout release).

(** The server serving one request, and a sequence of them. *)
Definition ServeHTTP (srv : Server) (r : gin.Request) (w : World)
  : gin.Context * World :=
  gin.handleHTTPRequest (Handler srv) r w.


(** ** cmd/server *)

Definition shutdownTimeout : Z := 10 * time.Second.

(** The goroutine around [srv.ListenAndServe()], given what that call
    returned. *)
Definition serveAPI (listenResult : option error) : Proc unit :=
  match listenResult with
  | Some err =>
      if errors.IsServerClosed err
      then Fatal "error serving API" [zap.FError err]
      else ret tt
  | None => ret tt
  end.

(** [app.WaitForSignal()] returns when a signal has been delivered; with
    none it blocks for good. *)
Definition awaitSignal (signalled : bool) : Proc unit :=
  emit WaitForSignal ;;;
  if signalled then ret tt else ([], Blocked).

(** What [Run] does between the signal and the return of
    [srv.Shutdown]. *)
Definition stopServer : Proc unit :=
  Info "signaled to terminate" [] ;;;
  emit AppCancel ;;;
  emit (Shutdown shutdownTimeout).

(** What [Run] does with the result of [srv.Shutdown]; the two deferred
    calls run when the function returns, not when the process exits. *)
Definition finish (shutdownResult : option error) : Proc unit :=
  match shutdownResult with
  | Some err => Fatal "server shutdown error" [zap.FError err]
  | None => ret tt
  end ;;;
  emit OtelShutdown ;;;
  Info "OK, done." [] ;;;
  emit CancelTimeout ;;;
  emit LoggerSync.

(** [Run] from the start of the listener goroutine on: the main
    goroutine waits for the signal, stops the server and finishes, beside
    the goroutine around [srv.ListenAndServe()].  [listenResult] is the
    error that call returns by itself, if any, and then the goroutine
    goes on at once; with [None] the listener serves until
    [srv.Shutdown] makes the call return [http.ErrServerClosed], so the
    goroutine has nothing to do before that.  [signalled] says whether a
    termination signal arrives, [shutdownResult] is what
    [srv.Shutdown(ctx)] returns, and [sched] is the order in which the two
    goroutines take their steps. *)
Definition serving (listenResult : option error) (signalled : bool)
    (shutdownResult : option error) (sched : list bool) : Proc unit :=
  match listenResult with
  | Some err =>
      interleave sched
        (awaitSignal signalled ;;; stopServer ;;; finish shutdownResult)
        (serveAPI (Some err))
  | None =>
      awaitSignal signalled ;;;
      stopServer ;;;
      interleave sched (finish shutdownResult) (serveAPI (Some ErrServerClosed))
  end.

(** The [Run] function of [serverCmd], with the goroutine it starts.
    [h] and [CfgFile] are where the configuration is read from and [cctx]
    is the cancellable context made from [c.Context()]; the other
    arguments are the environment of the run, as for [serving]. *)
Definition Run (h : app.Host) (CfgFile : string) (cctx : app.GoContext)
    (listenResult : option error) (signalled : bool)
    (shutdownResult : option error) (sched : list bool) : Proc unit :=
  cfg <- match app.LoadConfiguration h CfgFile with
         | inr err => ([Fatalf ("loading configuration: " +:+ errors.Error err)], Exit 1)
         | inl cfg => ret cfg
         end ;;
  let logger := app.GetLogger (app.DeveloperMode cfg) in
  a <- app.NewApp cctx cfg logger [] ;;
  emit MetricsListenAndServe ;;;
  emit InitOpenTelemetry ;;;
  Info "app initialized" [zap.FString "version" (version.String build)] ;;;
  srv <- ComposeHTTPServer a ;;
  emit (GoListenAndServe (Addr srv)) ;;;
  serving listenResult signalled shutdownResult sched.

End Service.

(** ** pkg/api/routes: the other scope builders *)

Definition readScopes (items : list string) : list string :=
  foldl (fun s i => s ++ ["read:" +:+ i]) ["read"] items.

Definition updateScopes (items : list string) : list string :=
  foldl (fun s i => s ++ ["update:" +:+ i]) ["write"; "update"] items.

Definition deleteScopes (items : list string) : list string :=
  foldl (fun s i => s ++ ["delete:" +:+ i]) ["write"; "delete"] items.

(** ** internal/metrics: the dependency error counter *)




(** * Notions used in the statements *)

(** The document the dispatcher's last [ctx.JSON] call renders for a
    handler outcome, and the code it asks for. *)
Definition outcomeCode (r : option (gmap string any) * option error) : Z :=
  match r.2 with
  | None => http.StatusOK
  | Some _ => http.StatusInternalServerError
  end.

Definition outcomeDoc (r : option (gmap string any) * option error) : any :=
  match r.2 with
  | None => ofMap r.1
  | Some err => AMap (errorBody err)
  end.

(** An option that leaves the [opts] map nil, as every function outside
    the package must: the field is unexported. *)
Definition keepsOptsNil (o : app.Option) : Prop :=
  forall a, app.opts a = None -> exists a', o a = Ret a' /\ app.opts a' = None.

(** The listen address is absent: the configuration file, once opened and
    unmarshalled, carries none, and viper finds none under
    [listen.address] in the file or the environment either. *)
Definition listenAddressAbsent (h : app.Host) (cfgFile : string) : Prop :=
  forall fh cfg,
    app.Open h cfgFile = inl fh ->
    app.Unmarshal h fh = inl cfg ->
    app.ListenAddress cfg = EmptyString /\
    app.GetString h fh "listen.address" = EmptyString.




(** Every chain of the engine starts with the two middlewares given to
    [g.Use]. *)
Definition chain (last : list (gin.HandlerFunc World)) : list (gin.HandlerFunc World) :=
  composeAppLogging :: gin.Recovery :: last.

(** The value of the package variable [authMiddleWare] once
    [ComposeHTTPServer] has returned: nil without JWT configuration, else
    the middleware built from it. *)
Definition authMiddleWareOf
    (newAuth : list app.AuthConfig -> MultiTokenMiddleware + error)
    (a : app.App) (auth : option MultiTokenMiddleware) : Prop :=
  (app.JWTAuth (app.Cfg a) = [] /\ auth = None) \/
  (app.JWTAuth (app.Cfg a) <> [] /\
   exists mw, newAuth (app.JWTAuth (app.Cfg a)) = inl mw /\ auth = Some mw).

(** The auth handler of the two API routes lets the request through: no
    JWT configuration is present, or the configured middleware leaves the
    fresh context of the request as it is. *)
Definition admits
    (newAuth : list app.AuthConfig -> MultiTokenMiddleware + error)
    (a : app.App) (r : gin.Request) : Prop :=
  app.JWTAuth (app.Cfg a) = [] \/
  exists mw, newAuth (app.JWTAuth (app.Cfg a)) = inl mw /\
             mw (createScopes ["response"]) (gin.fresh r) = gin.fresh r.

(** A state transformer that leaves the histogram and the log alone, and
    a handler whose body does (given that [c.Next] does). *)
Definition quietRun (f : gin.Context * World -> gin.Context * World) : Prop :=
  forall s, apiLatencySeconds (f s).2 = apiLatencySeconds s.2 /\
            logged (f s).2 = logged s.2.

Definition quiet (h : gin.HandlerFunc World) : Prop :=
  match h with
  | gin.Leaf body => quietRun body
  | gin.Around body => forall next, quietRun next -> quietRun (body next)
  end.

(** The severity [composeAppLogging] logs a finished request at. *)
Definition severity (c : gin.Context) : zap.Level :=
  if bool_decide (gin.Errors c = []) then zap.InfoLevel else zap.ErrorLevel.

(** The JWT configuration of [a] yields an auth middleware or needs
    none. *)
Definition authAvailable
    (newAuth : list app.AuthConfig -> MultiTokenMiddleware + error)
    (cfg : app.Configuration) : Prop :=
  app.JWTAuth cfg = [] \/ exists mw, newAuth (app.JWTAuth cfg) = inl mw.


(** A state transformer that takes no reading of the clock, and a
    handler whose body takes none (given that [c.Next] takes none). *)
Definition untimedRun (f : gin.Context * World -> gin.Context * World) : Prop :=
  forall s, clock (f s).2 = clock s.2.

Definition untimed (h : gin.HandlerFunc World) : Prop :=
  match h with
  | gin.Leaf body => untimedRun body
  | gin.Around body => forall next, untimedRun next -> untimedRun (body next)
  end.




(** The event is an entry of the listener goroutine. *)
Definition fromListener (e : Event) : bool :=
  match e with
  | Logged entry => bool_decide (zap.message entry = "error serving API")
  | _ => false
  end.

(** * Sample inputs *)

(** The double quote character, as a string. *)
Definition quote : string := String (ascii_of_nat 34) EmptyString.

(** The body of a request carrying the object with the one entry
    [ok: true], and that object. *)
Definition oneEntryBody : string :=
  "{" +:+ quote +:+ "ok" +:+ quote +:+ ":true}".

Definition oneEntry : gmap string any := {[ "ok" := ABool true ]}.

(** A decoder that agrees with encoding/json on the request bodies used
    below: the empty object, an object with one entry, and three bodies
    that do not decode as an object. *)
Definition sampleDecoder (body : string) : gmap string any + error :=
  if bool_decide (body = "{}") then inl ∅
  else if bool_decide (body = oneEntryBody) then inl oneEntry
  else if bool_decide (body = "[1,2,3]") then
    inr (New "json: cannot unmarshal array into Go value of type map[string]interface {}")
  else if bool_decide (body = "{") then inr (New "unexpected EOF")
  else inr (New "invalid character 'o' in literal null (expecting 'u')").

(** What encoding/json answers to a JSON array where an object is
    expected. *)
Definition arrayError : error :=
  New "json: cannot unmarshal array into Go value of type map[string]interface {}".

(** Requests, and a process that has served nothing yet. *)
Definition post (path body : string) : gin.Request :=
  gin.mkRequest "POST" path EmptyString body.

Definition get (path : string) : gin.Request :=
  gin.mkRequest "GET" path EmptyString EmptyString.

Definition idle : World := mkWorld [100; 130] [] [] [].

(** A handler that fails and still returns a non-empty result. *)
Definition failingWithResult : apiHandler :=
  fun m => (Some {[ "partial" := ABool true ]}, Some (New "disk full")).

(** An option from outside the package: it swaps the logger. *)
Definition withDevelopmentLogger : app.Option :=
  fun a => Ret (app.mkApp (app.mkLogger true) (app.Cfg a) (app.ctx a)
                          (app.term a) (app.opts a)).

(** A host whose configuration file sets developer mode and nothing
    else, with no override in the environment. *)
Definition hostWithoutAddress : app.Host :=
  app.mkHost (fun _ => inl "developer_mode: true")
             (fun _ => None)
             (fun _ => inl (app.mkConfiguration EmptyString true []))
             (fun _ _ => EmptyString)
             (fun _ _ => false).

(** A host whose configuration file sets the listen address. *)
Definition hostWithAddress : app.Host :=
  app.mkHost (fun _ => inl "listen_address: 0.0.0.0:8000")
             (fun _ => None)
             (fun _ => inl (app.mkConfiguration "0.0.0.0:8000" false []))
             (fun _ _ => EmptyString)
             (fun _ _ => false).

(** The JWT middleware constructor of a deployment without JWT
    configuration: it is never asked, and refuses if it were. *)
Definition noAuthConfigured (cfgs : list app.AuthConfig) : MultiTokenMiddleware + error :=
  inr (New "no auth configuration").

Definition sampleBuild : version.Version :=
  version.mkVersion "abc1234" "main" "v0.1.0-2-gabc1234" "1700000000" "v0.1.0" "go1.21.3".

(** An App as [Run] builds it on the second host. *)
Definition sampleApp : app.App :=
  app.mkApp (app.mkLogger false)
            (app.mkConfiguration "0.0.0.0:8000" false [])
            (app.mkGoContext None) [] None.

(** A bind failure of the listener. *)
Definition bindError : error :=
  New "listen tcp 0.0.0.0:8000: bind: address already in use".

(** A host whose configuration file cannot be opened, while the
    environment does carry a listen address. *)
Definition hostWithoutFile : app.Host :=
  app.mkHost (fun _ => inr (New "open config.yaml: no such file or directory"))
             (fun _ => None)
             (fun _ => inl (app.mkConfiguration EmptyString false []))
             (fun _ _ => "0.0.0.0:9000")
             (fun _ _ => false).

(** A host whose configuration file carries one JWT configuration, and a
    middleware constructor that cannot reach the key set. *)
Definition jwtConfig : app.AuthConfig :=
  app.mkAuthConfig true "skeleton" "https://issuer.example/" "https://issuer.example/jwks".

Definition hostWithJWT : app.Host :=
  app.mkHost (fun _ => inl "listen_address: 0.0.0.0:8000")
             (fun _ => None)
             (fun _ => inl (app.mkConfiguration "0.0.0.0:8000" false [jwtConfig]))
             (fun _ _ => EmptyString)
             (fun _ _ => false).

Definition unreachableJWKS (cfgs : list app.AuthConfig) : MultiTokenMiddleware + error :=
  inr (New "failed to fetch JWKS").

(** A middleware that turns every request away with status 401. *)
Definition denyAll : MultiTokenMiddleware :=
  fun _ c => gin.AbortWithStatus 401 c.

Definition sampleAppWithJWT : app.App :=
  app.mkApp (app.mkLogger false)
            (app.mkConfiguration "0.0.0.0:8000" false [jwtConfig])
            (app.mkGoContext None) [] None.

(** A handler that succeeds with a nil map. *)
Definition nilResult : apiHandler := fun _ => (None, None).

(** * Properties *)

(** ** The response writer *)

Section WriterFacts.

Implicit Types (w : gin.ResponseWriter) (c : gin.Context).

Lemma WriteHeader_unwritten code w :
  gin.written w = false -> 0 < code ->
  gin.WriteHeader code w = gin.mkWriter code false (gin.location w) (gin.body w).
Proof.
  intros Hw Hc. unfold gin.WriteHeader. rewrite Hw.
  destruct (Z.ltb_spec 0 code); [|lia]. simpl.
  destruct (Z.eqb_spec (gin.status w) code) as [<-|]; simpl.
  - destruct w; simpl in *; by subst.
  - done.
Qed.

(** Once the header has gone out, the status is fixed. *)
Lemma WriteHeader_written code w :
  gin.written w = true -> gin.WriteHeader code w = w.
Proof.
  intros Hw. unfold gin.WriteHeader. rewrite Hw. by destruct (_ && _).
Qed.

Lemma JSON_unwritten code doc c :
  gin.written (gin.Writer c) = false -> 0 < code ->
  gin.bodyAllowedForStatus code = true ->
  gin.JSON code doc c =
    gin.mkContext (gin.Req c)
      (gin.mkWriter code true (gin.location (gin.Writer c))
                    (gin.body (gin.Writer c) ++ [doc]))
      (gin.Errors c) (gin.aborted c).
Proof.
  intros Hw Hc Hb. unfold gin.JSON, gin.Status. rewrite Hb.
  rewrite WriteHeader_unwritten by done. reflexivity.
Qed.

Lemma JSON_written code doc c :
  gin.written (gin.Writer c) = true ->
  gin.bodyAllowedForStatus code = true ->
  gin.JSON code doc c =
    gin.mkContext (gin.Req c)
      (gin.mkWriter (gin.status (gin.Writer c)) true
                    (gin.location (gin.Writer c))
                    (gin.body (gin.Writer c) ++ [doc]))
      (gin.Errors c) (gin.aborted c).
Proof.
  intros Hw Hb. unfold gin.JSON, gin.Status. rewrite Hb.
  rewrite WriteHeader_written by done.
  unfold gin.withWriter, gin.Write, gin.WriteHeaderNow; simpl.
  rewrite Hw; simpl. rewrite Hw. reflexivity.
Qed.

Lemma AbortWithError_unwritten code err c :
  gin.written (gin.Writer c) = false -> 0 < code ->
  gin.AbortWithError code err c =
    gin.mkContext (gin.Req c)
      (gin.mkWriter code true (gin.location (gin.Writer c)) (gin.body (gin.Writer c)))
      (gin.Errors c ++ [err]) true.
Proof.
  intros Hw Hc. unfold gin.AbortWithError, gin.AbortWithStatus, gin.Status.
  rewrite WriteHeader_unwritten by done. reflexivity.
Qed.

End WriterFacts.

(** ** The dispatcher [wrapAPICall] *)

Section DispatcherFacts.

Variable decodeJSON : string -> gmap string any + error.

(** The body decodes: the handler runs on the decoded object and its
    outcome is the one response. *)
Lemma wrapAPICall_decoded fn c w m :
  gin.aborted c = false ->
  gin.written (gin.Writer c) = false ->
  decodeJSON (gin.Body (gin.Req c)) = inl m ->
  gin.Next [wrapAPICall decodeJSON fn] (c, w) =
    (gin.mkContext (gin.Req c)
       (gin.mkWriter (outcomeCode (fn m)) true (gin.location (gin.Writer c))
                     (gin.body (gin.Writer c) ++ [outcomeDoc (fn m)]))
       (gin.Errors c) false,
     recordCall m w).
Proof.
  intros Ha Hw Hd. simpl. rewrite Ha. unfold BindJSON. rewrite Hd.
  rewrite (right_id_L ∅ (∪) m).
  unfold outcomeCode, outcomeDoc.
  destruct (fn m) as [obj [err|]]; simpl;
    rewrite JSON_unwritten by done; by rewrite Ha.
Qed.

(** The body does not decode: the 400 goes out, and the code after the
    [if] still runs, calling the handler on the empty map and writing its
    outcome after the error document. *)
Lemma wrapAPICall_undecoded fn c w err :
  gin.aborted c = false ->
  gin.written (gin.Writer c) = false ->
  decodeJSON (gin.Body (gin.Req c)) = inr err ->
  gin.Next [wrapAPICall decodeJSON fn] (c, w) =
    (gin.mkContext (gin.Req c)
       (gin.mkWriter http.StatusBadRequest true (gin.location (gin.Writer c))
                     (gin.body (gin.Writer c)
                        ++ [AMap (errorBody err); outcomeDoc (fn ∅)]))
       (gin.Errors c ++ [err]) true,
     recordCall ∅ w).
Proof.
  intros Ha Hw Hd. simpl. rewrite Ha. unfold BindJSON. rewrite Hd.
  rewrite AbortWithError_unwritten by done.
  rewrite JSON_written by done. simpl.
  unfold outcomeDoc.
  destruct (fn ∅) as [obj [e|]]; simpl;
    rewrite JSON_written by done; simpl; by rewrite <- app_assoc.
Qed.

End DispatcherFacts.

(** ** Claims on the dispatcher *)

(** C1 (the code departs from it): a body that does not decode as a JSON
    object is answered with status 400 and the decode failure's message,
    but the handler is not skipped: [wrapAPICall] has no [return] after
    writing the 400, so the handler runs once per such request, on the
    empty map.  Two calls with the same malformed body give two 400s and
    two handler invocations. *)
Theorem wrapAPICall_malformed_body_invokes_handler
    (decodeJSON : string -> gmap string any + error) (fn : apiHandler)
    (r : gin.Request) (w : World) (err : error) :
  decodeJSON (gin.Body r) = inr err ->
  let first := gin.Next [wrapAPICall decodeJSON fn] (gin.fresh r, w) in
  let second := gin.Next [wrapAPICall decodeJSON fn] (gin.fresh r, first.2) in
  gin.status (gin.Writer first.1) = http.StatusBadRequest /\
  head (gin.body (gin.Writer first.1)) = Some (AMap {[ "error" := AString (errors.Error err) ]}) /\
  invoked first.2 = invoked w ++ [∅] /\
  gin.status (gin.Writer second.1) = http.StatusBadRequest /\
  invoked second.2 = invoked w ++ [∅; ∅].
Proof.
  intros Hd first second. subst first second.
  rewrite !(wrapAPICall_undecoded decodeJSON fn _ _ err) by done.
  simpl. by rewrite <- app_assoc.
Qed.

Lemma wrapAPICall_malformed_body_invokes_handler_witness :
  let first := gin.Next [wrapAPICall sampleDecoder apiEcho]
                        (gin.fresh (post "/api/echo" "[1,2,3]"), idle) in
  gin.status (gin.Writer first.1) = 400 /\
  invoked idle = [] /\ invoked first.2 = [∅].
Proof.
  destruct (wrapAPICall_malformed_body_invokes_handler sampleDecoder apiEcho
              (post "/api/echo" "[1,2,3]") idle arrayError eq_refl)
    as (Hs & _ & Hi & _).
  split; [exact Hs|]. split; [reflexivity|exact Hi].
Defined.

(** C2 (the code departs from it): on a body that does not decode, one
    request receives two response documents, the failure written for the
    decode error and then the outcome of the handler run on the empty map;
    with a handler that succeeds, that is a failure response and a success
    response for the same request. *)
Theorem wrapAPICall_malformed_body_two_responses
    (decodeJSON : string -> gmap string any + error) (fn : apiHandler)
    (r : gin.Request) (w : World) (err : error) (obj : option (gmap string any)) :
  decodeJSON (gin.Body r) = inr err ->
  fn ∅ = (obj, None) ->
  gin.body (gin.Writer (gin.Next [wrapAPICall decodeJSON fn] (gin.fresh r, w)).1)
  = [AMap (errorBody err); ofMap obj].
Proof.
  intros Hd Hfn.
  rewrite (wrapAPICall_undecoded decodeJSON fn _ _ err) by done.
  simpl. unfold outcomeDoc. by rewrite Hfn.
Qed.

Lemma wrapAPICall_malformed_body_two_responses_witness :
  gin.body (gin.Writer (gin.Next [wrapAPICall sampleDecoder apiEcho]
                                 (gin.fresh (post "/api/echo" "{"), idle)).1)
  = [AMap (errorBody (New "unexpected EOF")); AMap ∅].
Proof.
  apply (wrapAPICall_malformed_body_two_responses sampleDecoder apiEcho
           (post "/api/echo" "{") idle (New "unexpected EOF") (Some ∅));
    reflexivity.
Defined.

(** C5: when the body decodes to [m] and the handler returns an error on
    [m], the dispatcher answers 500 with the error's message under
    [error], whatever result value came with the error; for [apiError]
    that is 500 with "bad times", for every decoded input. *)
Theorem wrapAPICall_handler_error
    (decodeJSON : string -> gmap string any + error) (fn : apiHandler)
    (r : gin.Request) (w : World) (m : gmap string any)
    (obj : option (gmap string any)) (err : error) :
  decodeJSON (gin.Body r) = inl m ->
  fn m = (obj, Some err) ->
  let s := gin.Next [wrapAPICall decodeJSON fn] (gin.fresh r, w) in
  let s' := gin.Next [wrapAPICall decodeJSON apiError] (gin.fresh r, w) in
  (gin.status (gin.Writer s.1) = http.StatusInternalServerError /\
   gin.body (gin.Writer s.1) = [AMap {[ "error" := AString (errors.Error err) ]}]) /\
  (gin.status (gin.Writer s'.1) = http.StatusInternalServerError /\
   gin.body (gin.Writer s'.1) = [AMap {[ "error" := AString "bad times" ]}]).
Proof.
  intros Hd Hfn s s'. subst s s'.
  rewrite !(wrapAPICall_decoded decodeJSON _ _ _ m) by done.
  unfold outcomeCode, outcomeDoc. rewrite Hfn. simpl. done.
Qed.

Lemma wrapAPICall_handler_error_witness :
  let s := gin.Next [wrapAPICall sampleDecoder failingWithResult]
                    (gin.fresh (post "/api/x" "{}"), idle) in
  gin.status (gin.Writer s.1) = 500 /\
  gin.body (gin.Writer s.1) = [AMap {[ "error" := AString "disk full" ]}].
Proof.
  exact (proj1 (wrapAPICall_handler_error sampleDecoder failingWithResult
                  (post "/api/x" "{}") idle ∅
                  (Some {[ "partial" := ABool true ]}) (New "disk full")
                  eq_refl eq_refl)).
Defined.

(** ** Construction of the App *)

Lemma applyOptions_nil_map pre key opt post a :
  Forall keepsOptsNil pre ->
  app.opts a = None ->
  app.applyOptions (pre ++ app.NewOption key opt :: post) a
  = Panic "assignment to entry in nil map".
Proof.
  intros Hpre. revert a.
  induction Hpre as [|o pre Ho _ IH]; intros a Ha; simpl.
  - unfold app.NewOption. by rewrite Ha.
  - destruct (Ho a Ha) as (a' & -> & Ha'). by apply IH.
Qed.

(** C10: [NewApp] never makes the [opts] map, so an option built by
    [NewOption] assigns into a nil map and construction panics, whatever
    the context, configuration and logger (the options before it, if any,
    being ones that leave [opts] nil); with no options [NewApp] returns the
    App holding the logger, the configuration, the context and the signal
    channel. *)
Theorem NewApp_with_NewOption_panics
    (ctx : app.GoContext) (cfg : app.Configuration) (log : app.Logger)
    (pre post : list app.Option) (key : string) (opt : any) :
  Forall keepsOptsNil pre ->
  snd (app.NewApp ctx cfg log (pre ++ app.NewOption key opt :: post))
    = Panic "assignment to entry in nil map" /\
  app.NewApp ctx cfg log [] = ([SignalNotify], Ret (app.mkApp log cfg ctx [] None)).
Proof.
  intros Hpre. split; [|reflexivity].
  unfold app.NewApp. simpl. by apply applyOptions_nil_map.
Qed.

Lemma NewApp_with_NewOption_panics_witness :
  snd (app.NewApp (app.mkGoContext None)
         (app.mkConfiguration ":8000" false []) (app.mkLogger false)
         ([withDevelopmentLogger]
            ++ app.NewOption "nats" (AString "nats://localhost:4222") :: []))
  = Panic "assignment to entry in nil map".
Proof.
  refine (proj1 (NewApp_with_NewOption_panics _ _ _ [withDevelopmentLogger] []
                   "nats" (AString "nats://localhost:4222") _)).
  constructor; [|constructor].
  intros a Ha. eexists. split; [reflexivity|exact Ha].
Defined.

(** ** Configuration loading *)

Lemma envVarOverrides_ok getString getBool cfg cfg' :
  app.envVarOverrides getString getBool cfg = (cfg', None) ->
  app.ListenAddress cfg' <> EmptyString.
Proof.
  unfold app.envVarOverrides. intros H.
  repeat case_bool_decide; repeat case_match; simplify_eq/=.
  all: done.
Qed.

Lemma envVarOverrides_absent getString getBool cfg :
  app.ListenAddress cfg = EmptyString ->
  getString "listen.address" = EmptyString ->
  snd (app.envVarOverrides getString getBool cfg) = Some (New "no listen address set").
Proof.
  unfold app.envVarOverrides. intros Hc ->. cbv zeta.
  destruct (bool_decide (EmptyString <> EmptyString)) eqn:He.
  - apply bool_decide_eq_true_1 in He. congruence.
  - destruct (getBool _); simpl; rewrite Hc; reflexivity.
Qed.

Lemma LoadConfiguration_ok h cfgFile cfg :
  app.LoadConfiguration h cfgFile = inl cfg ->
  app.ListenAddress cfg <> EmptyString.
Proof.
  unfold app.LoadConfiguration. intros H.
  repeat case_match; simplify_eq/=.
  eauto using envVarOverrides_ok.
Qed.

Lemma LoadConfiguration_absent h cfgFile :
  listenAddressAbsent h cfgFile ->
  exists err, app.LoadConfiguration h cfgFile = inr err.
Proof.
  intros Habs. unfold app.LoadConfiguration.
  destruct (app.Open h cfgFile) as [fh|] eqn:Ho; [|eauto].
  destruct (app.ReadConfig h fh); [eauto|].
  destruct (app.Unmarshal h fh) as [cfg|] eqn:Hu; [|eauto].
  destruct (Habs fh cfg Ho Hu) as [Hc Hg].
  pose proof (envVarOverrides_absent (app.GetString h fh) (app.GetBool h fh) cfg Hc Hg) as He.
  destruct (app.envVarOverrides _ _ cfg) as [cfg' [err|]]; simpl in He; [eauto|done].
Qed.

(** C8: without a listen address in the file and in the environment,
    [LoadConfiguration] returns an error, and [Run] prints it and exits
    with status 1 as its first and only step, before any listener is
    started; so a configuration that [LoadConfiguration] does return has a
    listen address. *)
Theorem LoadConfiguration_requires_listen_address
    (decodeJSON : string -> gmap string any + error)
    (newAuth : list app.AuthConfig -> MultiTokenMiddleware + error)
    (build : version.Version)
    (h : app.Host) (cfgFile : string) (cctx : app.GoContext)
    (listenResult : option error) (signalled : bool)
    (shutdownResult : option error) (sched : list bool) :
  (listenAddressAbsent h cfgFile ->
   exists err,
     app.LoadConfiguration h cfgFile = inr err /\
     Run decodeJSON newAuth build h cfgFile cctx
         listenResult signalled shutdownResult sched
     = ([Fatalf ("loading configuration: " +:+ errors.Error err)], Exit 1)) /\
  (forall cfg,
     app.LoadConfiguration h cfgFile = inl cfg ->
     app.ListenAddress cfg <> EmptyString).
Proof.
  split; [|apply LoadConfiguration_ok].
  intros Habs. destruct (LoadConfiguration_absent h cfgFile Habs) as [err Herr].
  exists err. split; [done|]. unfold Run. by rewrite Herr.
Qed.

Lemma LoadConfiguration_requires_listen_address_witness :
  exists err,
    app.LoadConfiguration hostWithoutAddress "config.yaml" = inr err /\
    Run sampleDecoder noAuthConfigured sampleBuild hostWithoutAddress
        "config.yaml" (app.mkGoContext None) None true None []
    = ([Fatalf ("loading configuration: " +:+ errors.Error err)], Exit 1).
Proof.
  apply (proj1 (LoadConfiguration_requires_listen_address
                  sampleDecoder noAuthConfigured sampleBuild hostWithoutAddress
                  "config.yaml" (app.mkGoContext None) None true None [])).
  intros fh cfg Ho Hu. vm_compute in Hu. injection Hu as <-. split; reflexivity.
Defined.

(** ** The listener goroutine and shutdown *)

(** C3 (the code departs from it): the goroutine around
    [srv.ListenAndServe()] tests [errors.Is(err, http.ErrServerClosed)]
    without the negation, so every listener error other than the graceful
    close is dropped (nothing logged, no exit), and the graceful close is
    the one that is logged as fatal and ends the process. *)
Theorem serveAPI_drops_listener_errors (err : error) :
  errors.IsServerClosed err = false ->
  serveAPI (Some err) = ([], Ret tt) /\
  serveAPI (Some ErrServerClosed)
  = ([Logged (zap.mkEntry zap.FatalLevel "error serving API" [zap.FError ErrServerClosed])],
     Exit 1).
Proof.
  intros H. unfold serveAPI. rewrite H. split; reflexivity.
Qed.

Lemma serveAPI_drops_listener_errors_witness :
  serveAPI (Some bindError) = ([], Ret tt).
Proof.
  exact (proj1 (serveAPI_drops_listener_errors bindError eq_refl)).
Defined.

Lemma ComposeHTTPServer_ret decodeJSON newAuth build a evs srv :
  ComposeHTTPServer decodeJSON newAuth build a = (evs, Ret srv) ->
  evs = [] /\ Addr srv = app.ListenAddress (app.Cfg a).
Proof.
  unfold ComposeHTTPServer. intros H.
  destruct (bool_decide _); [destruct (newAuth _)|]; simpl in H;
    by simplify_eq.
Qed.

(** *** The two goroutines side by side *)

Lemma interleave_returned sched (m : Proc unit) :
  interleave sched m ([], Ret tt) = m.
Proof.
  revert m. induction sched as [|[] sched IH]; intros [ms mo].
  - destruct mo; simpl; try done. by rewrite app_nil_r.
  - destruct ms as [|e es]; simpl.
    + destruct mo; first [done | apply IH].
    + by rewrite IH.
  - reflexivity.
Qed.

(** The process ends as the main goroutine does, unless the other one
    ends it by an exit or a panic. *)
Lemma interleave_outcome sched (m g : Proc unit) :
  snd (interleave sched m g) = snd m \/
  (snd (interleave sched m g) = snd g /\
   ((exists code, snd g = Exit code) \/ exists msg, snd g = Panic msg)).
Proof.
  revert m g. induction sched as [|b sched IH]; intros [ms mo] [gs go].
  - destruct mo; simpl; try (by left). destruct go; simpl; eauto.
  - destruct b.
    + destruct ms as [|e es].
      * destruct mo; simpl; first [by left | apply (IH ([], Blocked) (gs, go))].
      * simpl. pose proof (IH (es, mo) (gs, go)) as H.
        by destruct (interleave sched (es, mo) (gs, go)).
    + destruct gs as [|e es].
      * destruct go; simpl; first [apply (IH (ms, mo) ([], Blocked)) | eauto].
      * simpl. pose proof (IH (ms, mo) (es, go)) as H.
        by destruct (interleave sched (ms, mo) (es, go)).
Qed.

(** Every event of the process is an event of one of the two. *)
Lemma interleave_elem sched (m g : Proc unit) e :
  e ∈ (interleave sched m g).1 -> e ∈ m.1 \/ e ∈ g.1.
Proof.
  revert m g. induction sched as [|b sched IH]; intros [ms mo] [gs go].
  - destruct mo; simpl; try (by left). destruct go; simpl; apply elem_of_app.
  - destruct b.
    + destruct ms as [|e' es].
      * destruct mo; simpl; first [by left | apply (IH ([], Blocked) (gs, go))].
      * simpl. pose proof (IH (es, mo) (gs, go)) as H.
        destruct (interleave sched (es, mo) (gs, go)) as [evs r]. simpl in *.
        rewrite !elem_of_cons. intuition.
    + destruct gs as [|e' es].
      * destruct go; simpl;
          first [apply (IH (ms, mo) ([], Blocked)) | by left | by intros ?%elem_of_nil].
      * simpl. pose proof (IH (ms, mo) (es, go)) as H.
        destruct (interleave sched (ms, mo) (es, go)) as [evs r]. simpl in *.
        rewrite !elem_of_cons. intuition.
Qed.

(** With the entries of the listener goroutine taken out, the events of
    the process are an initial part of those of the main goroutine, in
    its order. *)
Lemma interleave_main_prefix sched (m g : Proc unit) :
  filter (fun e => fromListener e = false) g.1 = [] ->
  filter (fun e => fromListener e = false) (interleave sched m g).1
    `prefix_of` filter (fun e => fromListener e = false) m.1.
Proof.
  revert m g. induction sched as [|b sched IH]; intros [ms mo] [gs go] Hg;
    simpl in Hg.
  - destruct mo; simpl; try done.
    destruct go; simpl; by rewrite filter_app, Hg, app_nil_r.
  - destruct b.
    + destruct ms as [|e es].
      * destruct mo; simpl;
          first [by apply (IH ([], Blocked) (gs, go)) | apply prefix_nil].
      * simpl. pose proof (IH (es, mo) (gs, go) Hg) as H.
        destruct (interleave sched (es, mo) (gs, go)) as [evs r]. simpl in *.
        rewrite !filter_cons. case_decide; [by apply prefix_cons|done].
    + destruct gs as [|e es].
      * destruct go; simpl;
          first [by apply (IH (ms, mo) ([], Blocked)) | apply prefix_nil | done].
      * rewrite filter_cons in Hg. case_decide as He; [done|].
        simpl. pose proof (IH (ms, mo) (es, go) Hg) as H.
        destruct (interleave sched (ms, mo) (es, go)) as [evs r]. simpl in *.
        rewrite filter_cons. by case_decide.
Qed.


(** [Run] once the configuration has loaded and the server is composed. *)
Lemma Run_started decodeJSON newAuth build h cfgFile cctx cfg srv
    listenResult signalled shutdownResult sched :
  app.LoadConfiguration h cfgFile = inl cfg ->
  snd (ComposeHTTPServer decodeJSON newAuth build
         (app.mkApp (app.GetLogger (app.DeveloperMode cfg)) cfg cctx [] None))
    = Ret srv ->
  Run decodeJSON newAuth build h cfgFile cctx
      listenResult signalled shutdownResult sched
  = ([ SignalNotify; MetricsListenAndServe; InitOpenTelemetry;
       Logged (zap.mkEntry zap.InfoLevel "app initialized"
                 [zap.FString "version" (version.String build)]);
       GoListenAndServe (app.ListenAddress cfg) ]
     ++ (serving listenResult signalled shutdownResult sched).1,
     (serving listenResult signalled shutdownResult sched).2).
Proof.
  intros Hload Hsrv. unfold Run. rewrite Hload. simpl.
  destruct (ComposeHTTPServer _ _ _ _) as [evs o] eqn:Hc.
  simpl in Hsrv. subst o.
  destruct (ComposeHTTPServer_ret _ _ _ _ _ _ Hc) as [-> Haddr].
  simpl in *. rewrite Haddr.
  by destruct (serving listenResult signalled shutdownResult sched).
Qed.

(** With the listener serving and the signal delivered, the goroutines
    meet only after [srv.Shutdown] has been called. *)
Lemma serving_stopped shutdownResult sched :
  serving None true shutdownResult sched
  = ([ WaitForSignal;
       Logged (zap.mkEntry zap.InfoLevel "signaled to terminate" []);
       AppCancel;
       Shutdown shutdownTimeout ]
     ++ (interleave sched (finish shutdownResult) (serveAPI (Some ErrServerClosed))).1,
     (interleave sched (finish shutdownResult) (serveAPI (Some ErrServerClosed))).2).
Proof.
  unfold serving. simpl.
  by destruct (interleave _ _ _).
Qed.




(** ** The composed server *)

Section EngineFacts.

Variable decodeJSON : string -> gmap string any + error.
Variable newAuth : list app.AuthConfig -> MultiTokenMiddleware + error.
Variable build : version.Version.

Lemma ComposeHTTPServer_engine a evs srv :
  ComposeHTTPServer decodeJSON newAuth build a = (evs, Ret srv) ->
  exists auth,
    authMiddleWareOf newAuth a auth /\
    gin.trees (Handler srv) =
      [ gin.mkRoute "GET" "/_health/liveness" (chain [livenessHandler]);
        gin.mkRoute "GET" "/api/version" (chain [versionHandler build]);
        gin.mkRoute "POST" "/api/echo"
          (chain [composeAuthHandler auth (createScopes ["response"]);
                  wrapAPICall decodeJSON apiEcho]);
        gin.mkRoute "POST" "/api/error"
          (chain [composeAuthHandler auth (createScopes ["response"]);
                  wrapAPICall decodeJSON apiError]) ] /\
    gin.allNoRoute (Handler srv) = chain [noRouteHandler] /\
    gin.RedirectTrailingSlash (Handler srv) = true.
Proof.
  unfold ComposeHTTPServer. intros H.
  case_bool_decide as Hj.
  - destruct (newAuth _) as [mw|] eqn:Hn; simpl in H; [|done].
    injection H as <- <-. exists (Some mw). split; [|done].
    right. split; [by intros E; rewrite E in Hj|eauto].
  - simpl in H. injection H as <- <-. exists None. split; [|done].
    left. split; [|done]. by destruct (app.JWTAuth _).
Qed.

(** What [composeAppLogging] adds around the rest of the chain: one
    sample under the request's path and the status the chain left, and
    one log entry at the severity the context's errors call for. *)
Lemma composeAppLogging_next rest c w :
  gin.aborted c = false ->
  let s1 := gin.Next rest (c, (time.Now w).2) in
  let s := gin.Next (composeAppLogging :: rest) (c, w) in
  s.1 = s1.1 /\
  invoked s.2 = invoked s1.2 /\
  apiLatencySeconds s.2 =
    apiLatencySeconds s1.2
      ++ [mkSample (gin.Path (gin.Req c))
                   (pretty (gin.status (gin.Writer s1.1)))
                   (hd 0 (clock s1.2) - hd 0 (clock w))] /\
  exists msg fields,
    logged s.2 = logged s1.2 ++ [zap.mkEntry (severity s1.1) msg fields].
Proof.
  intros Ha s1 s. subst s1 s. cbn [gin.Next fst]. rewrite Ha.
  unfold composeAppLogging, time.Now. cbv beta iota. cbn [snd].
  destruct (gin.Next rest _) as [c1 w1]. cbn [fst snd].
  unfold metrics.APICallEpilog, time.Now, metrics.Observe, severity.
  cbv beta iota zeta.
  destruct (gin.Errors c1) as [|e es] eqn:He.
  - rewrite bool_decide_eq_false_2 by (simpl; lia).
    rewrite bool_decide_eq_true_2 by done. simpl. eauto 10.
  - rewrite bool_decide_eq_true_2 by (simpl; lia).
    rewrite bool_decide_eq_false_2 by done. simpl. eauto 10.
Qed.


Lemma quiet_Recovery : quiet gin.Recovery.
Proof. intros next Hn s. apply Hn. Qed.

Lemma quiet_wrapAPICall fn : quiet (wrapAPICall decodeJSON fn).
Proof.
  intros [c w]. simpl. destruct (BindJSON _ _ _) as [[m err] ctx].
  destruct (fn m) as [obj [e|]]; by destruct err.
Qed.

Lemma quiet_composeAuthHandler auth scopes : quiet (composeAuthHandler auth scopes).
Proof. destruct auth; by intros [c w]. Qed.

Lemma quiet_noRouteHandler : quiet noRouteHandler.
Proof. by intros [c w]. Qed.

Lemma quiet_livenessHandler : quiet livenessHandler.
Proof. by intros [c w]. Qed.

Lemma quiet_versionHandler : quiet (versionHandler build).
Proof. by intros [c w]. Qed.

#[local] Hint Resolve quiet_Recovery quiet_wrapAPICall quiet_composeAuthHandler
  quiet_noRouteHandler quiet_livenessHandler quiet_versionHandler : core.







Lemma untimed_Recovery : untimed gin.Recovery.
Proof. intros next Hn s. apply Hn. Qed.

Lemma untimed_wrapAPICall fn : untimed (wrapAPICall decodeJSON fn).
Proof.
  intros [c w]. simpl. destruct (BindJSON _ _ _) as [[m err] ctx].
  destruct (fn m) as [obj [e|]]; by destruct err.
Qed.

Lemma untimed_composeAuthHandler auth scopes : untimed (composeAuthHandler auth scopes).
Proof. destruct auth; by intros [c w]. Qed.

Lemma untimed_noRouteHandler : untimed noRouteHandler.
Proof. by intros [c w]. Qed.

Lemma untimed_versionHandler : untimed (versionHandler build).
Proof. by intros [c w]. Qed.

#[local] Hint Resolve untimed_Recovery untimed_wrapAPICall untimed_composeAuthHandler
  untimed_noRouteHandler untimed_versionHandler : core.




(** The paths registered on the composed engine. *)
Lemma registered_paths a evs srv m p hs :
  ComposeHTTPServer decodeJSON newAuth build a = (evs, Ret srv) ->
  gin.registered (Handler srv) m p = Some hs ->
  p = "/_health/liveness" \/ p = "/api/version" \/ p = "/api/echo" \/ p = "/api/error".
Proof.
  intros H. destruct (ComposeHTTPServer_engine _ _ _ H) as (auth & _ & Ht & _ & _).
  unfold gin.registered. rewrite Ht. cbn [List.find gin.method gin.path].
  repeat case_bool_decide; cbn [fmap option_fmap option_map]; intros Hs;
    simplify_eq; intuition congruence.
Qed.


Lemma lookup_echo a evs srv r :
  ComposeHTTPServer decodeJSON newAuth build a = (evs, Ret srv) ->
  gin.Method r = "POST" -> gin.Path r = "/api/echo" ->
  exists auth,
    authMiddleWareOf newAuth a auth /\
    gin.lookup (Handler srv) r
    = gin.Found (chain [composeAuthHandler auth (createScopes ["response"]);
                        wrapAPICall decodeJSON apiEcho]).
Proof.
  intros H Hm Hp.
  destruct (ComposeHTTPServer_engine _ _ _ H) as (auth & Hauth & Ht & _ & _).
  exists auth. split; [done|].
  unfold gin.lookup, gin.registered. rewrite Ht, Hm, Hp. reflexivity.
Qed.

(** An admitted request reaches the dispatcher with its fresh
    context. *)
Lemma admitted_auth a r auth :
  authMiddleWareOf newAuth a auth ->
  admits newAuth a r ->
  exists body,
    composeAuthHandler auth (createScopes ["response"]) = gin.Leaf body /\
    forall w, body (gin.fresh r, w) = (gin.fresh r, w).
Proof.
  intros [[Hj ->]|(Hj & mw & Hmw & ->)] [Hj'|(mw' & Hmw' & Hid)];
    simpl; try done; eexists; (split; [reflexivity|]); intros w; try done.
  rewrite Hmw in Hmw'. injection Hmw' as <-. by rewrite Hid.
Qed.

Lemma api_route_context fn auth a r w :
  authMiddleWareOf newAuth a auth ->
  admits newAuth a r ->
  (gin.Next (chain [composeAuthHandler auth (createScopes ["response"]);
                    wrapAPICall decodeJSON fn]) (gin.fresh r, w)).1
  = (gin.Next [wrapAPICall decodeJSON fn] (gin.fresh r, (time.Now w).2)).1.
Proof.
  intros Hauth Hadm. unfold chain.
  destruct (composeAppLogging_next
              [gin.Recovery; composeAuthHandler auth (createScopes ["response"]);
               wrapAPICall decodeJSON fn] (gin.fresh r) w eq_refl) as [-> _].
  f_equal. set (w1 := (time.Now w).2).
  destruct (admitted_auth a r auth Hauth Hadm) as (body & -> & Hb).
  cbn [gin.Next gin.Recovery fst gin.aborted gin.fresh].
  by rewrite Hb.
Qed.

End EngineFacts.

(** ** The echo handler *)

Lemma foldl_insert_reverse (l : list (string * any)) :
  foldl (fun (rm : gmap string any) kv => <[kv.1 := kv.2]> rm) ∅ l
  = list_to_map (reverse l).
Proof.
  induction l as [|[k v] l IH] using rev_ind; [done|].
  rewrite foldl_app, reverse_app, IH. reflexivity.
Qed.

(** Whatever order [range m] visits the entries in, the copy equals
    [m]. *)
Lemma apiEchoIn_copies (m : gmap string any) (order : list (string * any)) :
  order ≡ₚ map_to_list m -> apiEchoIn order = (Some m, None).
Proof.
  intros Hp. unfold apiEchoIn. rewrite foldl_insert_reverse.
  rewrite <- (list_to_map_flip m (reverse order)); [done|].
  by rewrite reverse_Permutation.
Qed.

Lemma apiEcho_copies (m : gmap string any) : apiEcho m = (Some m, None).
Proof. by apply apiEchoIn_copies. Qed.

(** ** Claims on the composed server *)

(** C4: a POST to [/api/echo] that the auth handler lets through and
    whose body decodes to the object [m] is answered with status 200 and
    the one document [m]; [apiEcho] returns a copy equal to its input and
    no error, in whatever order the map is traversed. *)
Theorem echo_endpoint_returns_input
    (decodeJSON : string -> gmap string any + error)
    (newAuth : list app.AuthConfig -> MultiTokenMiddleware + error)
    (build : version.Version)
    (a : app.App) (evs : list Event) (srv : Server)
    (r : gin.Request) (w : World) (m : gmap string any) :
  ComposeHTTPServer decodeJSON newAuth build a = (evs, Ret srv) ->
  gin.Method r = "POST" ->
  gin.Path r = "/api/echo" ->
  admits newAuth a r ->
  decodeJSON (gin.Body r) = inl m ->
  let c := (ServeHTTP srv r w).1 in
  gin.status (gin.Writer c) = http.StatusOK /\
  gin.body (gin.Writer c) = [AMap m] /\
  apiEcho m = (Some m, None) /\
  forall order, order ≡ₚ map_to_list m -> apiEchoIn order = (Some m, None).
Proof.
  intros H Hm Hp Hadm Hd c.
  split_and!; [| |apply apiEcho_copies|apply apiEchoIn_copies].
  all: subst c; unfold ServeHTTP, gin.handleHTTPRequest.
  all: destruct (lookup_echo _ _ _ _ _ _ _ H Hm Hp) as (auth & Hauth & ->).
  all: pose proof (api_route_context decodeJSON newAuth apiEcho auth a r w Hauth Hadm) as Hc.
  all: rewrite (wrapAPICall_decoded decodeJSON apiEcho _ _ m) in Hc by done.
  all: destruct (gin.Next _ _) as [c' w']; simpl in Hc; subst c'.
  all: by rewrite apiEcho_copies.
Qed.

Lemma echo_endpoint_returns_input_witness :
  exists srv,
    ComposeHTTPServer sampleDecoder noAuthConfigured sampleBuild sampleApp = ([], Ret srv) /\
    let c := (ServeHTTP srv (post "/api/echo" oneEntryBody) idle).1 in
    gin.status (gin.Writer c) = 200 /\
    gin.body (gin.Writer c) = [AMap {[ "ok" := ABool true ]}].
Proof.
  eexists. split; [reflexivity|].
  destruct (echo_endpoint_returns_input sampleDecoder noAuthConfigured sampleBuild
              sampleApp [] _ (post "/api/echo" oneEntryBody) idle oneEntry
              eq_refl eq_refl eq_refl (or_introl eq_refl) eq_refl)
    as (Hs & Hb & _).
  split; [exact Hs|exact Hb].
Defined.





(** ** The logging and metrics middleware *)






(** * Further properties of the code *)

(** ** Scope builders *)

Lemma scopes_fold (pre : string) (base items : list string) :
  foldl (fun s i => s ++ [pre +:+ i]) base items
  = base ++ ((fun i => pre +:+ i) <$> items).
Proof.
  revert base. induction items as [|i items IH]; intros base; simpl.
  - by rewrite app_nil_r.
  - rewrite IH. by rewrite <- app_assoc.
Qed.

(** X1: the three writing scope builders return the two base scopes
    followed by one qualified scope per item, in the order of the items. *)
Theorem write_scopes_closed_form (items : list string) :
  createScopes items = "write" :: "create" :: ((fun i => "create:" +:+ i) <$> items) /\
  updateScopes items = "write" :: "update" :: ((fun i => "update:" +:+ i) <$> items) /\
  deleteScopes items = "write" :: "delete" :: ((fun i => "delete:" +:+ i) <$> items).
Proof.
  unfold createScopes, updateScopes, deleteScopes.
  by rewrite !scopes_fold.
Qed.

(** X2: [readScopes] gives [read] and one [read:item] per item; every
    scope it returns starts with [read], so it never grants [write]. *)
Theorem readScopes_only_read (items : list string) :
  readScopes items = "read" :: ((fun i => "read:" +:+ i) <$> items) /\
  Forall (fun s => String.prefix "read" s = true) (readScopes items) /\
  "write" ∉ readScopes items.
Proof.
  assert (Hform : readScopes items = "read" :: ((fun i => "read:" +:+ i) <$> items)).
  { unfold readScopes. by rewrite scopes_fold. }
  assert (Hall : Forall (fun s => String.prefix "read" s = true) (readScopes items)).
  { rewrite Hform. constructor; [done|].
    apply Forall_fmap, Forall_true. intros i. reflexivity. }
  split_and!; [done|done|].
  intros Hin. rewrite Forall_forall in Hall. by apply Hall in Hin.
Qed.

(** ** Configuration: overrides and failures *)

(** X3: what [envVarOverrides] does to the configuration.  A non-empty
    [listen.address] from viper replaces the address of the file; the
    developer flag can be switched on by viper but not off; the JWT
    configurations are left alone; and the error is returned exactly
    when the address is still empty afterwards. *)
Theorem envVarOverrides_result
    (getString : string -> string) (getBool : string -> bool)
    (cfg : app.Configuration) :
  let r := app.envVarOverrides getString getBool cfg in
  app.ListenAddress r.1 =
    (if bool_decide (getString "listen.address" = EmptyString)
     then app.ListenAddress cfg else getString "listen.address") /\
  app.DeveloperMode r.1 = app.DeveloperMode cfg || getBool "developer.mode" /\
  app.JWTAuth r.1 = app.JWTAuth cfg /\
  (r.2 = None <-> app.ListenAddress r.1 <> EmptyString) /\
  (r.2 <> None -> r.2 = Some (New "no listen address set")).
Proof.
  unfold app.envVarOverrides. cbv zeta.
  destruct cfg as [addr dev jwt]; simpl.
  destruct (getBool "developer.mode"), dev;
    repeat case_bool_decide; simpl in *; simplify_eq;
    split_and!; try done; try (split; congruence); try congruence.
Qed.

(** X4: [LoadConfiguration] succeeds exactly when the file opens, parses
    and unmarshals and an address is available from the file or from
    viper; the configuration returned is the one of the file with the
    overrides applied. *)
Theorem LoadConfiguration_success (h : app.Host) (cfgFile : string)
    (cfg : app.Configuration) :
  app.LoadConfiguration h cfgFile = inl cfg <->
  exists fh cfg0,
    app.Open h cfgFile = inl fh /\
    app.ReadConfig h fh = None /\
    app.Unmarshal h fh = inl cfg0 /\
    cfg = (app.envVarOverrides (app.GetString h fh) (app.GetBool h fh) cfg0).1 /\
    app.ListenAddress cfg <> EmptyString.
Proof.
  unfold app.LoadConfiguration. split.
  - intros H.
    destruct (app.Open h cfgFile) as [fh|] eqn:Ho; [|done].
    destruct (app.ReadConfig h fh) eqn:Hr; [done|].
    destruct (app.Unmarshal h fh) as [cfg0|] eqn:Hu; [|done].
    destruct (app.envVarOverrides _ _ cfg0) as [cfg' [err|]] eqn:He; [done|].
    injection H as <-. exists fh, cfg0. rewrite He. split_and!; try done.
    by eapply envVarOverrides_ok.
  - intros (fh & cfg0 & -> & -> & -> & Hc & Ha).
    pose proof (envVarOverrides_result (app.GetString h fh) (app.GetBool h fh) cfg0)
      as (_ & _ & _ & Hnone & _).
    destruct (app.envVarOverrides _ _ cfg0) as [cfg' o]. simpl in *. subst cfg'.
    apply Hnone in Ha. by subst o.
Qed.

Lemma LoadConfiguration_success_witness :
  app.LoadConfiguration hostWithAddress "config.yaml"
  = inl (app.mkConfiguration "0.0.0.0:8000" false []).
Proof.
  apply (proj2 (LoadConfiguration_success hostWithAddress "config.yaml"
                  (app.mkConfiguration "0.0.0.0:8000" false []))).
  exists "listen_address: 0.0.0.0:8000", (app.mkConfiguration "0.0.0.0:8000" false []).
  split_and!; try reflexivity. discriminate.
Defined.

(** X5: an error of [LoadConfiguration] names the stage that failed.  It
    wraps the cause under the message of the first failing step, and a
    failure of a step hides whatever the later steps and the environment
    would have given. *)
Theorem LoadConfiguration_error_stage (h : app.Host) (cfgFile : string)
    (err : error) :
  app.LoadConfiguration h cfgFile = inr err ->
  (exists cause, app.Open h cfgFile = inr cause /\
                 err = Wrap cause ("opening config file " +:+ cfgFile)) \/
  (exists fh cause, app.Open h cfgFile = inl fh /\
                    app.ReadConfig h fh = Some cause /\
                    err = Wrap cause ("reading config " +:+ cfgFile)) \/
  (exists fh cause, app.Open h cfgFile = inl fh /\
                    app.ReadConfig h fh = None /\
                    app.Unmarshal h fh = inr cause /\
                    err = Wrap cause "unmarshaling config") \/
  (exists fh cfg0, app.Open h cfgFile = inl fh /\
                   app.ReadConfig h fh = None /\
                   app.Unmarshal h fh = inl cfg0 /\
                   err = Wrap (New "no listen address set")
                              "configuring environment orverrides").
Proof.
  unfold app.LoadConfiguration. intros H.
  destruct (app.Open h cfgFile) as [fh|cause] eqn:Ho; [|left; naive_solver].
  destruct (app.ReadConfig h fh) as [cause|] eqn:Hr; [right; left; naive_solver|].
  destruct (app.Unmarshal h fh) as [cfg0|cause] eqn:Hu;
    [|right; right; left; naive_solver].
  right; right; right. exists fh, cfg0. split_and!; try done.
  pose proof (envVarOverrides_result (app.GetString h fh) (app.GetBool h fh) cfg0)
    as (_ & _ & _ & _ & Herr).
  destruct (app.envVarOverrides _ _ cfg0) as [cfg' [e|]]; [|done].
  simpl in Herr. injection H as <-. f_equal.
  assert (Some e = Some (New "no listen address set")) as He by (by apply Herr).
  by injection He.
Qed.

Lemma LoadConfiguration_error_stage_witness :
  errors.Error
    (match app.LoadConfiguration hostWithoutFile "config.yaml" with
     | inr err => err
     | inl _ => New EmptyString
     end)
  = "opening config file config.yaml: open config.yaml: no such file or directory".
Proof.
  destruct (LoadConfiguration_error_stage hostWithoutFile "config.yaml" _ eq_refl)
    as [(cause & Ho & He)|[(fh & ? & Ho & _)|[(fh & ? & Ho & _)|(fh & ? & Ho & _)]]];
    try discriminate Ho.
  reflexivity.
Defined.

(** ** Composition of the server and the run of the process *)

Lemma ComposeHTTPServer_cases decodeJSON newAuth build a :
  (authAvailable newAuth (app.Cfg a) /\
   exists srv, ComposeHTTPServer decodeJSON newAuth build a = ([], Ret srv) /\
               Addr srv = app.ListenAddress (app.Cfg a)) \/
  (app.JWTAuth (app.Cfg a) <> [] /\
   exists err, newAuth (app.JWTAuth (app.Cfg a)) = inr err /\
     ComposeHTTPServer decodeJSON newAuth build a
     = ([Logged (zap.mkEntry zap.FatalLevel "failed to initialize auth middleware"
                   [zap.FError err])], Exit 1)).
Proof.
  unfold ComposeHTTPServer, authAvailable.
  case_bool_decide as Hj.
  - assert (app.JWTAuth (app.Cfg a) <> []) as Hne by (by intros E; rewrite E in Hj).
    destruct (newAuth _) as [mw|err] eqn:Hn; simpl.
    + left. split; [eauto|]. eexists. split; reflexivity.
    + right. split; [done|]. by exists err.
  - left. split; [left; by destruct (app.JWTAuth _)|].
    eexists. split; reflexivity.
Qed.

(** X6: the auth middleware decides whether the server can be composed.
    [ComposeHTTPServer] ends the process, with one fatal log entry and no
    server, exactly when JWT configurations are present and the
    middleware cannot be built from them; without JWT configuration the
    constructor is not consulted at all. *)
Theorem ComposeHTTPServer_fatal_iff
    (decodeJSON : string -> gmap string any + error)
    (newAuth : list app.AuthConfig -> MultiTokenMiddleware + error)
    (build : version.Version) (a : app.App) :
  (snd (ComposeHTTPServer decodeJSON newAuth build a) = Exit 1 <->
   app.JWTAuth (app.Cfg a) <> [] /\
   exists err, newAuth (app.JWTAuth (app.Cfg a)) = inr err) /\
  (app.JWTAuth (app.Cfg a) = [] ->
   forall newAuth',
     ComposeHTTPServer decodeJSON newAuth' build a
     = ComposeHTTPServer decodeJSON newAuth build a).
Proof.
  split.
  - destruct (ComposeHTTPServer_cases decodeJSON newAuth build a)
      as [([Hj|[mw Hmw]] & srv & -> & _)|(Hj & err & Herr & ->)]; simpl.
    + split; [done|]. by intros [? _].
    + split; [done|]. intros (_ & err & Herr). congruence.
    + split; [eauto|done].
  - intros Hj newAuth'. unfold ComposeHTTPServer. rewrite Hj. reflexivity.
Qed.

(** How a run of the process can go: it ends while loading the
    configuration, or while composing the server, or it starts the
    listener goroutine and goes on as [serving] says. *)
Lemma Run_cases decodeJSON newAuth build h cfgFile cctx
    listenResult signalled shutdownResult sched :
  let run := Run decodeJSON newAuth build h cfgFile cctx
                 listenResult signalled shutdownResult sched in
  let started :=
    [ SignalNotify; MetricsListenAndServe; InitOpenTelemetry;
      Logged (zap.mkEntry zap.InfoLevel "app initialized"
                [zap.FString "version" (version.String build)]) ] in
  (exists err, app.LoadConfiguration h cfgFile = inr err /\
     run = ([Fatalf ("loading configuration: " +:+ errors.Error err)], Exit 1)) \/
  (exists cfg err, app.LoadConfiguration h cfgFile = inl cfg /\
     app.JWTAuth cfg <> [] /\ newAuth (app.JWTAuth cfg) = inr err /\
     run = (started ++
            [Logged (zap.mkEntry zap.FatalLevel "failed to initialize auth middleware"
                       [zap.FError err])], Exit 1)) \/
  (exists cfg, app.LoadConfiguration h cfgFile = inl cfg /\
     authAvailable newAuth cfg /\
     run = (started ++ [GoListenAndServe (app.ListenAddress cfg)]
            ++ (serving listenResult signalled shutdownResult sched).1,
            (serving listenResult signalled shutdownResult sched).2)).
Proof.
  intros run started. subst run started.
  destruct (app.LoadConfiguration h cfgFile) as [cfg|err] eqn:Hload.
  2:{ left. exists err. split; [done|]. unfold Run. by rewrite Hload. }
  right.
  destruct (ComposeHTTPServer_cases decodeJSON newAuth build
              (app.mkApp (app.GetLogger (app.DeveloperMode cfg)) cfg cctx [] None))
    as [(Hauth & srv & Hc & Haddr)|(Hj & err & Herr & Hc)]; simpl in *.
  - right. exists cfg. split_and!; try done.
    rewrite (Run_started decodeJSON newAuth build h cfgFile cctx cfg srv);
      [done|done|by rewrite Hc].
  - left. exists cfg, err. split_and!; try done.
    unfold Run. rewrite Hload. simpl. rewrite Hc. reflexivity.
Qed.

(** The events of the main goroutine from the wait for the signal on. *)
Lemma main_events signalled shutdownResult :
  (awaitSignal signalled ;;; stopServer ;;; finish shutdownResult)
  = match signalled, shutdownResult with
    | false, _ => ([WaitForSignal], Blocked)
    | true, Some err =>
        ([ WaitForSignal;
           Logged (zap.mkEntry zap.InfoLevel "signaled to terminate" []);
           AppCancel; Shutdown shutdownTimeout;
           Logged (zap.mkEntry zap.FatalLevel "server shutdown error" [zap.FError err]) ],
         Exit 1)
    | true, None =>
        ([ WaitForSignal;
           Logged (zap.mkEntry zap.InfoLevel "signaled to terminate" []);
           AppCancel; Shutdown shutdownTimeout;
           OtelShutdown;
           Logged (zap.mkEntry zap.InfoLevel "OK, done." []);
           CancelTimeout; LoggerSync ],
         Ret tt)
    end.
Proof. by destruct signalled, shutdownResult. Qed.

Lemma serveAPI_from_listener listenResult :
  filter (fun e => fromListener e = false) (serveAPI listenResult).1 = [].
Proof.
  destruct listenResult as [err|]; [|done].
  unfold serveAPI. by destruct (errors.IsServerClosed err).
Qed.

(** With the entries of the listener goroutine taken out, what happens
    after the start of that goroutine is an initial part of the main
    goroutine's steps. *)
Lemma serving_main_prefix listenResult signalled shutdownResult sched :
  filter (fun e => fromListener e = false)
         (serving listenResult signalled shutdownResult sched).1
    `prefix_of` (awaitSignal signalled ;;; stopServer ;;; finish shutdownResult).1.
Proof.
  assert (forall sr,
            filter (fun e => fromListener e = false) (finish sr).1 = (finish sr).1)
    as Hfin by (by intros [e|]).
  destruct listenResult as [err|].
  - unfold serving.
    pose proof (interleave_main_prefix sched
                  (awaitSignal signalled ;;; stopServer ;;; finish shutdownResult)
                  (serveAPI (Some err)) (serveAPI_from_listener (Some err))) as H.
    rewrite main_events in *. by destruct signalled, shutdownResult.
  - destruct signalled.
    + rewrite serving_stopped. cbn [fst].
      pose proof (interleave_main_prefix sched (finish shutdownResult)
                    (serveAPI (Some ErrServerClosed))
                    (serveAPI_from_listener (Some ErrServerClosed))) as H.
      rewrite Hfin in H. rewrite filter_app, main_events.
      destruct shutdownResult; simpl in *; by repeat apply prefix_cons.
    + by rewrite main_events.
Qed.

(** How [serving] can end. *)
Lemma serving_outcome listenResult signalled shutdownResult sched :
  let o := (serving listenResult signalled shutdownResult sched).2 in
  (o = Ret tt /\ signalled = true /\ shutdownResult = None) \/
  (o = Blocked /\ signalled = false) \/
  o = Exit 1.
Proof.
  intros o. subst o. destruct listenResult as [err|].
  - unfold serving.
    destruct (interleave_outcome sched
                (awaitSignal signalled ;;; stopServer ;;; finish shutdownResult)
                (serveAPI (Some err))) as [->|[-> Hg]].
    + rewrite main_events. destruct signalled, shutdownResult; simpl; eauto.
    + right; right. unfold serveAPI in *.
      destruct (errors.IsServerClosed err); simpl in *; [done|].
      by destruct Hg as [[? ?]|[? ?]].
  - destruct signalled.
    + rewrite serving_stopped. cbn [snd].
      destruct (interleave_outcome sched (finish shutdownResult)
                  (serveAPI (Some ErrServerClosed))) as [->|[-> _]].
      * destruct shutdownResult; simpl; eauto.
      * by right; right.
    + right; left. done.
Qed.

(** X7: a graceful shutdown is a race between the two goroutines.  With
    a configuration that loads, an auth middleware that is available, the
    listener serving, the signal delivered and a shutdown that returns no
    error: if the main goroutine is left undisturbed, [Run] goes through
    its steps in source order and returns, the deferred [cancel] before
    the deferred [logger.Sync]; if the listener goroutine gets its turn
    first, the process ends with its fatal entry and exit status 1,
    before [otelShutdown]; and no order of the two ends otherwise than in
    a return or in exit status 1. *)
Theorem Run_graceful_is_a_race
    (decodeJSON : string -> gmap string any + error)
    (newAuth : list app.AuthConfig -> MultiTokenMiddleware + error)
    (build : version.Version)
    (h : app.Host) (cfgFile : string) (cctx : app.GoContext)
    (cfg : app.Configuration) :
  app.LoadConfiguration h cfgFile = inl cfg ->
  authAvailable newAuth cfg ->
  let stopped :=
    [ SignalNotify;
      MetricsListenAndServe;
      InitOpenTelemetry;
      Logged (zap.mkEntry zap.InfoLevel "app initialized"
                [zap.FString "version" (version.String build)]);
      GoListenAndServe (app.ListenAddress cfg);
      WaitForSignal;
      Logged (zap.mkEntry zap.InfoLevel "signaled to terminate" []);
      AppCancel;
      Shutdown shutdownTimeout ] in
  Run decodeJSON newAuth build h cfgFile cctx None true None []
  = (stopped ++
     [ OtelShutdown;
       Logged (zap.mkEntry zap.InfoLevel "OK, done." []);
       CancelTimeout;
       LoggerSync ],
     Ret tt) /\
  (forall sched,
     Run decodeJSON newAuth build h cfgFile cctx None true None
         (false :: false :: sched)
     = (stopped ++
        [Logged (zap.mkEntry zap.FatalLevel "error serving API"
                   [zap.FError ErrServerClosed])],
        Exit 1)) /\
  (forall sched,
     let o := snd (Run decodeJSON newAuth build h cfgFile cctx None true None sched) in
     o = Ret tt \/ o = Exit 1).
Proof.
  intros Hload Hauth stopped. subst stopped.
  destruct (ComposeHTTPServer_cases decodeJSON newAuth build
              (app.mkApp (app.GetLogger (app.DeveloperMode cfg)) cfg cctx [] None))
    as [(_ & srv & Hc & _)|(Hj & err & Herr & _)]; simpl in *.
  2:{ destruct Hauth as [?|[mw ?]]; congruence. }
  assert (snd (ComposeHTTPServer decodeJSON newAuth build
                 (app.mkApp (app.GetLogger (app.DeveloperMode cfg)) cfg cctx [] None))
          = Ret srv) as Hs by (by rewrite Hc).
  split_and!.
  - by rewrite (Run_started _ _ _ _ _ _ cfg srv), serving_stopped.
  - intros sched. by rewrite (Run_started _ _ _ _ _ _ cfg srv), serving_stopped.
  - intros sched. rewrite (Run_started _ _ _ _ _ _ cfg srv) by done.
    cbn [snd].
    destruct (serving_outcome None true None sched) as [(-> & _)|[(_ & ?)| ->]];
      [by left|done|by right].
Qed.

Lemma Run_graceful_is_a_race_witness :
  snd (Run sampleDecoder noAuthConfigured sampleBuild hostWithAddress
           "config.yaml" (app.mkGoContext None) None true None [false; false])
  = Exit 1.
Proof.
  exact (f_equal snd
           (proj1 (proj2
              (Run_graceful_is_a_race sampleDecoder noAuthConfigured sampleBuild
                 hostWithAddress "config.yaml" (app.mkGoContext None)
                 (app.mkConfiguration "0.0.0.0:8000" false [])
                 eq_refl (or_introl eq_refl))) [])).
Defined.

(** X8: [Run] returns only when the configuration loads, the auth
    middleware is available, a termination signal arrives and the
    shutdown reports no error; and it is left waiting for good only when
    no signal arrives. *)
Theorem Run_returns_only_if
    (decodeJSON : string -> gmap string any + error)
    (newAuth : list app.AuthConfig -> MultiTokenMiddleware + error)
    (build : version.Version)
    (h : app.Host) (cfgFile : string) (cctx : app.GoContext)
    (listenResult : option error) (signalled : bool)
    (shutdownResult : option error) (sched : list bool) :
  let run := Run decodeJSON newAuth build h cfgFile cctx
                 listenResult signalled shutdownResult sched in
  (snd run = Ret tt ->
   (exists cfg, app.LoadConfiguration h cfgFile = inl cfg /\ authAvailable newAuth cfg) /\
   signalled = true /\ shutdownResult = None) /\
  (snd run = Blocked -> signalled = false).
Proof.
  intros run. subst run.
  destruct (Run_cases decodeJSON newAuth build h cfgFile cctx
              listenResult signalled shutdownResult sched)
    as [(err & He & ->)|[(c & err & Hc & Hj & Hn & ->)|(c & Hc & Ha & ->)]];
    cbn [snd]; try (split; discriminate).
  destruct (serving_outcome listenResult signalled shutdownResult sched)
    as [(-> & -> & ->)|[(-> & ->)| ->]]; split; try discriminate; eauto.
Qed.

Lemma Run_returns_only_if_witness :
  (exists cfg, app.LoadConfiguration hostWithAddress "config.yaml" = inl cfg /\
               authAvailable noAuthConfigured cfg) /\
  true = true /\ (None : option error) = None.
Proof.
  exact (proj1 (Run_returns_only_if sampleDecoder noAuthConfigured sampleBuild
                  hostWithAddress "config.yaml" (app.mkGoContext None)
                  None true None [])
               eq_refl).
Defined.

(** X9: the API listener goroutine is started only when the
    configuration has loaded and the auth middleware is available, and
    then on the listen address of that configuration, which is never
    empty. *)
Theorem Run_listens_on_configured_address
    (decodeJSON : string -> gmap string any + error)
    (newAuth : list app.AuthConfig -> MultiTokenMiddleware + error)
    (build : version.Version)
    (h : app.Host) (cfgFile : string) (cctx : app.GoContext)
    (listenResult : option error) (signalled : bool)
    (shutdownResult : option error) (sched : list bool) (addr : string) :
  GoListenAndServe addr ∈ (Run decodeJSON newAuth build h cfgFile cctx
                               listenResult signalled shutdownResult sched).1 ->
  addr <> EmptyString /\
  exists cfg, app.LoadConfiguration h cfgFile = inl cfg /\
              authAvailable newAuth cfg /\
              addr = app.ListenAddress cfg.
Proof.
  intros Hin.
  destruct (Run_cases decodeJSON newAuth build h cfgFile cctx
              listenResult signalled shutdownResult sched)
    as [(err & He & Hr)|[(c & err & Hc & Hj & Hn & Hr)|(c & Hc & Ha & Hr)]];
    rewrite Hr in Hin; simpl in Hin;
    repeat (apply elem_of_cons in Hin as [Hin|Hin]; [try discriminate Hin|]);
    try (by apply elem_of_nil in Hin).
  - injection Hin as ->. split; [by eapply LoadConfiguration_ok|eauto].
  - exfalso.
    assert (GoListenAndServe addr
              ∈ filter (fun e => fromListener e = false)
                       (serving listenResult signalled shutdownResult sched).1) as Hf
      by (by apply list_elem_of_filter).
    destruct (serving_main_prefix listenResult signalled shutdownResult sched)
      as [k Hk].
    assert (GoListenAndServe addr
              ∈ (awaitSignal signalled ;;; stopServer ;;; finish shutdownResult).1) as Hm
      by (rewrite Hk; apply elem_of_app; by left).
    rewrite main_events in Hm.
    destruct signalled, shutdownResult; simpl in Hm;
      repeat (apply elem_of_cons in Hm as [Hm|Hm]; [discriminate Hm|]);
      by apply elem_of_nil in Hm.
Qed.

Lemma Run_listens_on_configured_address_witness :
  "0.0.0.0:8000" <> EmptyString.
Proof.
  refine (proj1 (Run_listens_on_configured_address sampleDecoder noAuthConfigured
                   sampleBuild hostWithAddress "config.yaml" (app.mkGoContext None)
                   None true None [] "0.0.0.0:8000" _)).
  unfold Run. simpl. rewrite !elem_of_cons. tauto.
Defined.

(** X10: the shutdown is requested only after the signal has been waited
    for and the App's context cancelled, and always under the ten-second
    bound. *)
Theorem Run_shutdown_after_signal
    (decodeJSON : string -> gmap string any + error)
    (newAuth : list app.AuthConfig -> MultiTokenMiddleware + error)
    (build : version.Version)
    (h : app.Host) (cfgFile : string) (cctx : app.GoContext)
    (listenResult : option error) (signalled : bool)
    (shutdownResult : option error) (sched : list bool)
    (pre post : list Event) (t : Z) :
  (Run decodeJSON newAuth build h cfgFile cctx
       listenResult signalled shutdownResult sched).1
    = pre ++ Shutdown t :: post ->
  WaitForSignal ∈ pre /\ AppCancel ∈ pre /\ t = 10 * time.Second.
Proof.
  intros Htr.
  assert (forall l : list Event,
            WaitForSignal ∈ filter (fun e => fromListener e = false) l /\
            AppCancel ∈ filter (fun e => fromListener e = false) l /\
            t = 10 * time.Second ->
            WaitForSignal ∈ l /\ AppCancel ∈ l /\ t = 10 * time.Second) as Hback.
  { intros l (H1 & H2 & H3).
    apply list_elem_of_filter in H1 as [_ H1].
    apply list_elem_of_filter in H2 as [_ H2]. done. }
  apply Hback. clear Hback.
  apply (f_equal (filter (fun e => fromListener e = false))) in Htr.
  rewrite filter_app, filter_cons_True in Htr by done.
  set (fpre := filter _ pre) in *. set (fpost := filter _ post) in *.
  clearbody fpre fpost.
  destruct (Run_cases decodeJSON newAuth build h cfgFile cctx
              listenResult signalled shutdownResult sched)
    as [(err & He & Hr)|[(c & err & Hc & Hj & Hn & Hr)|(c & Hc & Ha & Hr)]];
    rewrite Hr in Htr; clear Hr; cbn [fst] in Htr.
  - simpl in Htr.
    repeat (destruct fpre as [|? fpre]; simpl in Htr;
            [ simplify_eq
            | first [discriminate Htr | injection Htr as ? Htr; subst] ]).
  - simpl in Htr.
    repeat (destruct fpre as [|? fpre]; simpl in Htr;
            [ simplify_eq
            | first [discriminate Htr | injection Htr as ? Htr; subst] ]).
  - rewrite !filter_app in Htr.
    destruct (serving_main_prefix listenResult signalled shutdownResult sched)
      as [k Hk].
    rewrite main_events in Hk.
    apply (f_equal (fun l => l ++ k)) in Htr.
    rewrite <- !app_assoc, <- Hk in Htr. clear Hk.
    destruct signalled, shutdownResult; simpl in Htr;
      repeat (destruct fpre as [|? fpre]; simpl in Htr;
              [ simplify_eq; try (split_and!; [set_solver|set_solver|reflexivity])
              | first [discriminate Htr | injection Htr as ? Htr; subst] ]).
Qed.

Lemma Run_shutdown_after_signal_witness :
  (10000000000 : Z) = 10 * time.Second.
Proof.
  refine (proj2 (proj2 (Run_shutdown_after_signal sampleDecoder noAuthConfigured
            sampleBuild hostWithAddress "config.yaml" (app.mkGoContext None)
            None true None []
            [ SignalNotify; MetricsListenAndServe; InitOpenTelemetry;
              Logged (zap.mkEntry zap.InfoLevel "app initialized"
                        [zap.FString "version" (version.String sampleBuild)]);
              GoListenAndServe "0.0.0.0:8000"; WaitForSignal;
              Logged (zap.mkEntry zap.InfoLevel "signaled to terminate" []);
              AppCancel ]
            [ OtelShutdown; Logged (zap.mkEntry zap.InfoLevel "OK, done." []);
              CancelTimeout; LoggerSync ]
            10000000000 _))).
  reflexivity.
Defined.

(** X11: when JWT configurations are present and the auth middleware
    cannot be built from them, [Run] logs that at fatal level and exits
    with status 1 after the metrics server and telemetry were set up, and
    before the API listener, the wait for the signal or any shutdown. *)
Theorem Run_auth_failure_is_fatal
    (decodeJSON : string -> gmap string any + error)
    (newAuth : list app.AuthConfig -> MultiTokenMiddleware + error)
    (build : version.Version)
    (h : app.Host) (cfgFile : string) (cctx : app.GoContext)
    (listenResult : option error) (signalled : bool)
    (shutdownResult : option error) (sched : list bool)
    (cfg : app.Configuration) (err : error) :
  app.LoadConfiguration h cfgFile = inl cfg ->
  app.JWTAuth cfg <> [] ->
  newAuth (app.JWTAuth cfg) = inr err ->
  Run decodeJSON newAuth build h cfgFile cctx
      listenResult signalled shutdownResult sched
  = ([ SignalNotify;
       MetricsListenAndServe;
       InitOpenTelemetry;
       Logged (zap.mkEntry zap.InfoLevel "app initialized"
                 [zap.FString "version" (version.String build)]);
       Logged (zap.mkEntry zap.FatalLevel "failed to initialize auth middleware"
                 [zap.FError err]) ],
     Exit 1).
Proof.
  intros Hload Hj Herr.
  destruct (Run_cases decodeJSON newAuth build h cfgFile cctx
              listenResult signalled shutdownResult sched)
    as [(e & He & _)|[(c & e & Hc & _ & Hn & ->)|(c & Hc & Ha & _)]].
  - congruence.
  - rewrite Hload in Hc. injection Hc as <-. rewrite Herr in Hn. by injection Hn as <-.
  - rewrite Hload in Hc. injection Hc as <-. destruct Ha as [?|[mw ?]]; congruence.
Qed.

Lemma Run_auth_failure_is_fatal_witness :
  snd (Run sampleDecoder unreachableJWKS sampleBuild hostWithJWT "config.yaml"
           (app.mkGoContext None) None true None [])
  = Exit 1.
Proof.
  exact (f_equal snd
           (Run_auth_failure_is_fatal sampleDecoder unreachableJWKS sampleBuild
              hostWithJWT "config.yaml" (app.mkGoContext None) None true None []
              (app.mkConfiguration "0.0.0.0:8000" false [jwtConfig])
              (New "failed to fetch JWKS") eq_refl ltac:(discriminate) eq_refl)).
Defined.

(** ** The routes of the composed server *)

Section RouteFacts.

Variable decodeJSON : string -> gmap string any + error.
Variable newAuth : list app.AuthConfig -> MultiTokenMiddleware + error.
Variable build : version.Version.

(** The log entry and the sample [composeAppLogging] leaves, in full. *)
Lemma composeAppLogging_entry rest c w :
  gin.aborted c = false ->
  let s1 := gin.Next rest (c, (time.Now w).2) in
  let s := gin.Next (composeAppLogging :: rest) (c, w) in
  let base := [ zap.FString "path" (gin.Path (gin.Req c));
                zap.FString "query" (gin.RawQuery (gin.Req c));
                zap.FInt "status-code" (gin.status (gin.Writer s1.1));
                zap.FTime "start" (hd 0 (clock w)) ] in
  logged s.2 =
    logged s1.2
      ++ [ if bool_decide (gin.Errors s1.1 = [])
           then zap.mkEntry zap.InfoLevel "api call complete" base
           else zap.mkEntry zap.ErrorLevel "errors on API request"
                  (base ++ [zap.FStrings "errors" (errors.Error <$> gin.Errors s1.1)]) ].
Proof.
  intros Ha s1 s base. subst s1 s base. cbn [gin.Next fst]. rewrite Ha.
  unfold composeAppLogging, time.Now. cbv beta iota. cbn [snd].
  destruct (gin.Next rest _) as [c1 w1]. cbn [fst snd].
  unfold metrics.APICallEpilog, time.Now, metrics.Observe.
  cbv beta iota zeta.
  destruct (gin.Errors c1) as [|e es] eqn:He.
  - rewrite bool_decide_eq_false_2 by (simpl; lia).
    rewrite bool_decide_eq_true_2 by done. reflexivity.
  - rewrite bool_decide_eq_true_2 by (simpl; lia).
    rewrite bool_decide_eq_false_2 by done. reflexivity.
Qed.

(** Which method a registered path belongs to. *)
Lemma registered_method a evs srv m p hs :
  ComposeHTTPServer decodeJSON newAuth build a = (evs, Ret srv) ->
  gin.registered (Handler srv) m p = Some hs ->
  (m = "GET" /\ (p = "/_health/liveness" \/ p = "/api/version")) \/
  (m = "POST" /\ (p = "/api/echo" \/ p = "/api/error")).
Proof.
  intros H. destruct (ComposeHTTPServer_engine _ _ _ _ _ _ H) as (auth & _ & Ht & _ & _).
  unfold gin.registered. rewrite Ht. cbn [List.find gin.method gin.path].
  repeat case_bool_decide; cbn [fmap option_fmap option_map]; intros Hs;
    simplify_eq; intuition congruence.
Qed.

(** The chain of each of the two API routes. *)
Lemma lookup_api a evs srv r fn :
  ComposeHTTPServer decodeJSON newAuth build a = (evs, Ret srv) ->
  gin.Method r = "POST" ->
  (gin.Path r = "/api/echo" /\ fn = apiEcho) \/
  (gin.Path r = "/api/error" /\ fn = apiError) ->
  exists auth,
    authMiddleWareOf newAuth a auth /\
    gin.lookup (Handler srv) r
    = gin.Found (chain [composeAuthHandler auth (createScopes ["response"]);
                        wrapAPICall decodeJSON fn]).
Proof.
  intros H Hm Hp.
  destruct (ComposeHTTPServer_engine _ _ _ _ _ _ H) as (auth & Hauth & Ht & _ & _).
  exists auth. split; [done|].
  unfold gin.lookup, gin.registered. rewrite Ht, Hm.
  destruct Hp as [[-> ->]|[-> ->]]; reflexivity.
Qed.

(** An API path asked for with another method has no route. *)
Lemma lookup_api_other_method a evs srv r :
  ComposeHTTPServer decodeJSON newAuth build a = (evs, Ret srv) ->
  gin.Method r <> "POST" ->
  gin.Path r = "/api/echo" \/ gin.Path r = "/api/error" ->
  gin.lookup (Handler srv) r = gin.NotFound.
Proof.
  intros H Hm Hp. unfold gin.lookup.
  destruct (gin.registered _ _ (gin.Path r)) as [hs|] eqn:Hreg.
  { apply (registered_method _ _ _ _ _ _ H) in Hreg.
    destruct Hp as [Hp|Hp]; rewrite Hp in Hreg; intuition congruence. }
  destruct (bool_decide (is_Some _)) eqn:Hs; [|by rewrite andb_false_r].
  apply bool_decide_eq_true_1 in Hs. destruct Hs as [hs Hs].
  apply (registered_paths _ _ _ _ _ _ _ _ _ H) in Hs.
  destruct Hp as [Hp|Hp]; rewrite Hp in Hs; vm_compute in Hs; intuition congruence.
Qed.

(** The answer of the no-route chain, which calls no domain handler. *)
Lemma notFound_served a evs srv r w :
  ComposeHTTPServer decodeJSON newAuth build a = (evs, Ret srv) ->
  gin.lookup (Handler srv) r = gin.NotFound ->
  let s := ServeHTTP srv r w in
  gin.status (gin.Writer s.1) = http.StatusNotFound /\
  gin.body (gin.Writer s.1) = [AMap notFoundBody] /\
  invoked s.2 = invoked w.
Proof.
  intros H Hl s. subst s. unfold ServeHTTP, gin.handleHTTPRequest. rewrite Hl.
  destruct (ComposeHTTPServer_engine _ _ _ _ _ _ H) as (_ & _ & _ & -> & _).
  unfold gin.serveError, chain.
  set (c0 := gin.withWriter _ _).
  destruct (composeAppLogging_next [gin.Recovery; noRouteHandler] c0 w eq_refl)
    as (Hc & Hi & _).
  destruct (gin.Next (composeAppLogging :: _) _) as [c' w'].
  simpl in Hc, Hi. subst c'. rewrite JSON_unwritten by done. simpl. done.
Qed.

End RouteFacts.

Section ServedFacts.

Variable decodeJSON : string -> gmap string any + error.
Variable newAuth : list app.AuthConfig -> MultiTokenMiddleware + error.
Variable build : version.Version.

(** Behind the logging middleware, an admitted request goes straight to
    the dispatcher. *)
Lemma api_rest_run fn auth a r w :
  authMiddleWareOf newAuth a auth ->
  admits newAuth a r ->
  gin.Next [gin.Recovery; composeAuthHandler auth (createScopes ["response"]);
            wrapAPICall decodeJSON fn] (gin.fresh r, w)
  = gin.Next [wrapAPICall decodeJSON fn] (gin.fresh r, w).
Proof.
  intros Hauth Hadm.
  destruct (admitted_auth newAuth a r auth Hauth Hadm) as (body & -> & Hb).
  cbn [gin.Next gin.Recovery fst gin.aborted gin.fresh].
  by rewrite Hb.
Qed.

(** What the server leaves after a request: the context of the chain with
    the header sent, and the world of the chain. *)
Lemma found_served (srv : Server) r w hs :
  gin.lookup (Handler srv) r = gin.Found hs ->
  ServeHTTP srv r w
  = (gin.withWriter (gin.Next hs (gin.fresh r, w)).1
       (gin.WriteHeaderNow (gin.Writer (gin.Next hs (gin.fresh r, w)).1)),
     (gin.Next hs (gin.fresh r, w)).2).
Proof.
  intros Hl. unfold ServeHTTP, gin.handleHTTPRequest. rewrite Hl.
  by destruct (gin.Next hs _).
Qed.

(** An admitted request to an API route, in terms of the dispatcher's
    run [s1] behind the middleware. *)
Lemma api_route_served a evs srv r w fn :
  ComposeHTTPServer decodeJSON newAuth build a = (evs, Ret srv) ->
  gin.Method r = "POST" ->
  (gin.Path r = "/api/echo" /\ fn = apiEcho) \/
  (gin.Path r = "/api/error" /\ fn = apiError) ->
  admits newAuth a r ->
  let s1 := gin.Next [wrapAPICall decodeJSON fn] (gin.fresh r, (time.Now w).2) in
  let s := ServeHTTP srv r w in
  let base := [ zap.FString "path" (gin.Path r);
                zap.FString "query" (gin.RawQuery r);
                zap.FInt "status-code" (gin.status (gin.Writer s1.1));
                zap.FTime "start" (hd 0 (clock w)) ] in
  s.1 = gin.withWriter s1.1 (gin.WriteHeaderNow (gin.Writer s1.1)) /\
  invoked s.2 = invoked s1.2 /\
  apiLatencySeconds s.2 =
    apiLatencySeconds s1.2
      ++ [mkSample (gin.Path r) (pretty (gin.status (gin.Writer s1.1)))
                   (hd 0 (clock s1.2) - hd 0 (clock w))] /\
  logged s.2 =
    logged s1.2
      ++ [ if bool_decide (gin.Errors s1.1 = [])
           then zap.mkEntry zap.InfoLevel "api call complete" base
           else zap.mkEntry zap.ErrorLevel "errors on API request"
                  (base ++ [zap.FStrings "errors" (errors.Error <$> gin.Errors s1.1)]) ].
Proof.
  intros H Hm Hp Hadm s1 s base. subst s1 s base.
  destruct (lookup_api decodeJSON newAuth build a evs srv r fn H Hm Hp)
    as (auth & Hauth & Hl).
  rewrite (found_served srv r w _ Hl). unfold chain. cbn [fst snd].
  pose proof (composeAppLogging_next
                [gin.Recovery; composeAuthHandler auth (createScopes ["response"]);
                 wrapAPICall decodeJSON fn] (gin.fresh r) w eq_refl) as (Hc & Hi & Hs & _).
  pose proof (composeAppLogging_entry
                [gin.Recovery; composeAuthHandler auth (createScopes ["response"]);
                 wrapAPICall decodeJSON fn] (gin.fresh r) w eq_refl) as He.
  cbv zeta in Hc, Hi, Hs, He.
  rewrite (api_rest_run fn auth a r _ Hauth Hadm) in Hc, Hi, Hs, He.
  rewrite Hc, Hi, Hs, He. done.
Qed.

End ServedFacts.

(** ** Requests served by the composed server *)

(** X12: a handler error is answered with 500 but logged as a completed
    call.  For an admitted POST to [/api/error] with a body that decodes,
    the one log entry is at informational level, carries the path, the
    query, the status 500 and the start time, and not the error; the one
    sample is labelled with the path and the code [500]. *)
Theorem handler_error_is_logged_at_info
    (decodeJSON : string -> gmap string any + error)
    (newAuth : list app.AuthConfig -> MultiTokenMiddleware + error)
    (build : version.Version)
    (a : app.App) (evs : list Event) (srv : Server)
    (r : gin.Request) (w : World) (m : gmap string any) :
  ComposeHTTPServer decodeJSON newAuth build a = (evs, Ret srv) ->
  gin.Method r = "POST" ->
  gin.Path r = "/api/error" ->
  admits newAuth a r ->
  decodeJSON (gin.Body r) = inl m ->
  let s := ServeHTTP srv r w in
  gin.status (gin.Writer s.1) = 500 /\
  gin.body (gin.Writer s.1) = [AMap {[ "error" := AString "bad times" ]}] /\
  logged s.2 =
    logged w
      ++ [zap.mkEntry zap.InfoLevel "api call complete"
            [ zap.FString "path" "/api/error";
              zap.FString "query" (gin.RawQuery r);
              zap.FInt "status-code" 500;
              zap.FTime "start" (hd 0 (clock w)) ]] /\
  apiLatencySeconds s.2 =
    apiLatencySeconds w
      ++ [mkSample "/api/error" "500" (hd 0 (tl (clock w)) - hd 0 (clock w))].
Proof.
  intros H Hm Hp Hadm Hd s. subst s.
  destruct (api_route_served decodeJSON newAuth build a evs srv r w apiError H Hm
              (or_intror (conj Hp eq_refl)) Hadm) as (Hc & _ & Hs & Hl).
  rewrite (wrapAPICall_decoded decodeJSON apiError _ _ m) in Hc, Hs, Hl by done.
  rewrite Hc, Hs, Hl, Hp. simpl. done.
Qed.

Lemma handler_error_is_logged_at_info_witness :
  exists srv,
    ComposeHTTPServer sampleDecoder noAuthConfigured sampleBuild sampleApp = ([], Ret srv) /\
    zap.level <$> logged (ServeHTTP srv (post "/api/error" "{}") idle).2
    = [zap.InfoLevel].
Proof.
  eexists. split; [reflexivity|].
  destruct (handler_error_is_logged_at_info sampleDecoder noAuthConfigured sampleBuild
              sampleApp [] _ (post "/api/error" "{}") idle ∅
              eq_refl eq_refl eq_refl (or_introl eq_refl) eq_refl)
    as (_ & _ & Hl & _).
  by rewrite Hl.
Defined.

(** X13: a body that does not decode is logged as an error.  For an
    admitted POST to either API route, the status is 400, the one log
    entry is at error level and carries the decode failure's message under
    [errors], and the one sample is labelled with the code [400], whatever
    the handler then returns. *)
Theorem decode_failure_is_logged_at_error
    (decodeJSON : string -> gmap string any + error)
    (newAuth : list app.AuthConfig -> MultiTokenMiddleware + error)
    (build : version.Version)
    (a : app.App) (evs : list Event) (srv : Server)
    (r : gin.Request) (w : World) (err : error) :
  ComposeHTTPServer decodeJSON newAuth build a = (evs, Ret srv) ->
  gin.Method r = "POST" ->
  gin.Path r = "/api/echo" \/ gin.Path r = "/api/error" ->
  admits newAuth a r ->
  decodeJSON (gin.Body r) = inr err ->
  let s := ServeHTTP srv r w in
  gin.status (gin.Writer s.1) = 400 /\
  gin.Errors s.1 = [err] /\
  logged s.2 =
    logged w
      ++ [zap.mkEntry zap.ErrorLevel "errors on API request"
            [ zap.FString "path" (gin.Path r);
              zap.FString "query" (gin.RawQuery r);
              zap.FInt "status-code" 400;
              zap.FTime "start" (hd 0 (clock w));
              zap.FStrings "errors" [errors.Error err] ]] /\
  apiLatencySeconds s.2 =
    apiLatencySeconds w
      ++ [mkSample (gin.Path r) "400" (hd 0 (tl (clock w)) - hd 0 (clock w))].
Proof.
  intros H Hm Hp Hadm Hd s. subst s.
  assert (exists fn, (gin.Path r = "/api/echo" /\ fn = apiEcho) \/
                     (gin.Path r = "/api/error" /\ fn = apiError)) as [fn Hfn].
  { destruct Hp; [exists apiEcho|exists apiError]; tauto. }
  destruct (api_route_served decodeJSON newAuth build a evs srv r w fn H Hm Hfn Hadm)
    as (Hc & _ & Hs & Hl).
  rewrite (wrapAPICall_undecoded decodeJSON fn _ _ err) in Hc, Hs, Hl by done.
  rewrite Hc, Hs, Hl. simpl. done.
Qed.

Lemma decode_failure_is_logged_at_error_witness :
  exists srv,
    ComposeHTTPServer sampleDecoder noAuthConfigured sampleBuild sampleApp = ([], Ret srv) /\
    zap.level <$> logged (ServeHTTP srv (post "/api/echo" "[1,2,3]") idle).2
    = [zap.ErrorLevel].
Proof.
  eexists. split; [reflexivity|].
  destruct (decode_failure_is_logged_at_error sampleDecoder noAuthConfigured sampleBuild
              sampleApp [] _ (post "/api/echo" "[1,2,3]") idle arrayError
              eq_refl eq_refl (or_introl eq_refl) (or_introl eq_refl) eq_refl)
    as (_ & _ & Hl & _).
  by rewrite Hl.
Defined.

(** X14: a request the auth middleware aborts never reaches the domain
    handler.  With JWT configured, if the middleware aborts the context of
    a POST to an API route, the response is what the middleware left
    (header sent), and no handler call is made. *)
Theorem rejected_request_skips_handler
    (decodeJSON : string -> gmap string any + error)
    (newAuth : list app.AuthConfig -> MultiTokenMiddleware + error)
    (build : version.Version)
    (a : app.App) (evs : list Event) (srv : Server)
    (r : gin.Request) (w : World) (mw : MultiTokenMiddleware) :
  ComposeHTTPServer decodeJSON newAuth build a = (evs, Ret srv) ->
  app.JWTAuth (app.Cfg a) <> [] ->
  newAuth (app.JWTAuth (app.Cfg a)) = inl mw ->
  gin.Method r = "POST" ->
  gin.Path r = "/api/echo" \/ gin.Path r = "/api/error" ->
  gin.aborted (mw (createScopes ["response"]) (gin.fresh r)) = true ->
  let c := mw (createScopes ["response"]) (gin.fresh r) in
  let s := ServeHTTP srv r w in
  s.1 = gin.withWriter c (gin.WriteHeaderNow (gin.Writer c)) /\
  invoked s.2 = invoked w.
Proof.
  intros H Hj Hmw Hm Hp Hab c s. subst c s.
  assert (exists fn, (gin.Path r = "/api/echo" /\ fn = apiEcho) \/
                     (gin.Path r = "/api/error" /\ fn = apiError)) as [fn Hfn].
  { destruct Hp; [exists apiEcho|exists apiError]; tauto. }
  destruct (lookup_api decodeJSON newAuth build a evs srv r fn H Hm Hfn)
    as (auth & Hauth & Hl).
  assert (auth = Some mw) as ->.
  { destruct Hauth as [[? _]|(_ & mw' & Hmw' & ->)]; [done|congruence]. }
  rewrite (found_served srv r w _ Hl). unfold chain. cbn [fst snd].
  destruct (composeAppLogging_next
              [gin.Recovery; composeAuthHandler (Some mw) (createScopes ["response"]);
               wrapAPICall decodeJSON fn] (gin.fresh r) w eq_refl) as (Hc & Hi & _).
  cbv zeta in Hc, Hi. rewrite Hc, Hi.
  cbn [gin.Next gin.Recovery composeAuthHandler fst snd gin.aborted gin.fresh].
  rewrite Hab. done.
Qed.

Lemma rejected_request_skips_handler_witness :
  exists srv,
    ComposeHTTPServer sampleDecoder (fun _ => inl denyAll) sampleBuild sampleAppWithJWT
    = ([], Ret srv) /\
    let s := ServeHTTP srv (post "/api/echo" "{}") idle in
    gin.status (gin.Writer s.1) = 401 /\ invoked s.2 = [].
Proof.
  eexists. split; [reflexivity|].
  destruct (rejected_request_skips_handler sampleDecoder (fun _ => inl denyAll)
              sampleBuild sampleAppWithJWT [] _ (post "/api/echo" "{}") idle denyAll
              eq_refl ltac:(discriminate) eq_refl eq_refl (or_introl eq_refl) eq_refl)
    as (Hc & Hi).
  split; [by rewrite Hc|exact Hi].
Defined.

(** X15: the liveness endpoint needs no authorization and no request
    body.  A GET to [/_health/liveness] is answered with status 200 and
    one document holding the time read while handling the request,
    whatever the auth configuration; no domain handler runs. *)
Theorem liveness_is_always_200
    (decodeJSON : string -> gmap string any + error)
    (newAuth : list app.AuthConfig -> MultiTokenMiddleware + error)
    (build : version.Version)
    (a : app.App) (evs : list Event) (srv : Server)
    (r : gin.Request) (w : World) :
  ComposeHTTPServer decodeJSON newAuth build a = (evs, Ret srv) ->
  gin.Method r = "GET" ->
  gin.Path r = "/_health/liveness" ->
  let s := ServeHTTP srv r w in
  gin.status (gin.Writer s.1) = 200 /\
  gin.body (gin.Writer s.1) = [AMap {[ "time" := ATime (hd 0 (tl (clock w))) ]}] /\
  invoked s.2 = invoked w.
Proof.
  intros H Hm Hp s. subst s.
  destruct (ComposeHTTPServer_engine _ _ _ _ _ _ H) as (auth & _ & Ht & _ & _).
  assert (gin.lookup (Handler srv) r = gin.Found (chain [livenessHandler])) as Hl.
  { unfold gin.lookup, gin.registered. rewrite Ht, Hm, Hp. reflexivity. }
  rewrite (found_served srv r w _ Hl). unfold chain. cbn [fst snd].
  destruct (composeAppLogging_next [gin.Recovery; livenessHandler] (gin.fresh r) w eq_refl)
    as (Hc & Hi & _).
  cbv zeta in Hc, Hi. rewrite Hc, Hi. done.
Qed.

Lemma liveness_is_always_200_witness :
  exists srv,
    ComposeHTTPServer sampleDecoder (fun _ => inl denyAll) sampleBuild sampleAppWithJWT
    = ([], Ret srv) /\
    let s := ServeHTTP srv (get "/_health/liveness") idle in
    gin.status (gin.Writer s.1) = 200 /\
    gin.body (gin.Writer s.1) = [AMap {[ "time" := ATime 130 ]}].
Proof.
  eexists. split; [reflexivity|].
  destruct (liveness_is_always_200 sampleDecoder (fun _ => inl denyAll) sampleBuild
              sampleAppWithJWT [] _ (get "/_health/liveness") idle
              eq_refl eq_refl eq_refl) as (Hs & Hb & _).
  split; [exact Hs|exact Hb].
Defined.

(** X16: the version endpoint needs no authorization either.  A GET to
    [/api/version] is answered with status 200 and the version document,
    which has the six fields of the build under their JSON names. *)
Theorem version_endpoint_reports_build
    (decodeJSON : string -> gmap string any + error)
    (newAuth : list app.AuthConfig -> MultiTokenMiddleware + error)
    (build : version.Version)
    (a : app.App) (evs : list Event) (srv : Server)
    (r : gin.Request) (w : World) :
  ComposeHTTPServer decodeJSON newAuth build a = (evs, Ret srv) ->
  gin.Method r = "GET" ->
  gin.Path r = "/api/version" ->
  let s := ServeHTTP srv r w in
  gin.status (gin.Writer s.1) = 200 /\
  invoked s.2 = invoked w /\
  exists doc : gmap string any,
    gin.body (gin.Writer s.1) = [AMap doc] /\
    doc !! "git_commit" = Some (AString (version.GitCommit build)) /\
    doc !! "git_branch" = Some (AString (version.GitBranch build)) /\
    doc !! "git_summary" = Some (AString (version.GitSummary build)) /\
    doc !! "build_date" = Some (AString (version.BuildDate build)) /\
    doc !! "app_version" = Some (AString (version.AppVersion build)) /\
    doc !! "go_version" = Some (AString (version.GoVersion build)) /\
    size doc = 6%nat.
Proof.
  intros H Hm Hp s. subst s.
  destruct (ComposeHTTPServer_engine _ _ _ _ _ _ H) as (auth & _ & Ht & _ & _).
  assert (gin.lookup (Handler srv) r = gin.Found (chain [versionHandler build])) as Hl.
  { unfold gin.lookup, gin.registered. rewrite Ht, Hm, Hp. reflexivity. }
  rewrite (found_served srv r w _ Hl). unfold chain. cbn [fst snd].
  destruct (composeAppLogging_next [gin.Recovery; versionHandler build] (gin.fresh r) w eq_refl)
    as (Hc & Hi & _).
  cbv zeta in Hc, Hi. rewrite Hc, Hi.
  split; [done|]. split; [done|].
  eexists. split; [reflexivity|].
  split_and!; by simplify_map_eq.
Qed.

Lemma version_endpoint_reports_build_witness :
  exists srv,
    ComposeHTTPServer sampleDecoder noAuthConfigured sampleBuild sampleApp = ([], Ret srv) /\
    gin.status (gin.Writer (ServeHTTP srv (get "/api/version") idle).1) = 200.
Proof.
  eexists. split; [reflexivity|].
  exact (proj1 (version_endpoint_reports_build sampleDecoder noAuthConfigured sampleBuild
                  sampleApp [] _ (get "/api/version") idle eq_refl eq_refl eq_refl)).
Defined.

(** X17: the API routes exist for POST only.  A request for [/api/echo]
    or [/api/error] with any other method is answered by the no-route
    handler, 404 with its message, and no domain handler runs. *)
Theorem api_path_other_method_is_404
    (decodeJSON : string -> gmap string any + error)
    (newAuth : list app.AuthConfig -> MultiTokenMiddleware + error)
    (build : version.Version)
    (a : app.App) (evs : list Event) (srv : Server)
    (r : gin.Request) (w : World) :
  ComposeHTTPServer decodeJSON newAuth build a = (evs, Ret srv) ->
  gin.Method r <> "POST" ->
  gin.Path r = "/api/echo" \/ gin.Path r = "/api/error" ->
  let s := ServeHTTP srv r w in
  gin.status (gin.Writer s.1) = 404 /\
  gin.body (gin.Writer s.1)
  = [AMap {[ "message" := AString "invalid request - route not found" ]}] /\
  invoked s.2 = invoked w.
Proof.
  intros H Hm Hp.
  apply (notFound_served decodeJSON newAuth build a evs srv r w H).
  by apply (lookup_api_other_method decodeJSON newAuth build a evs).
Qed.

Lemma api_path_other_method_is_404_witness :
  exists srv,
    ComposeHTTPServer sampleDecoder noAuthConfigured sampleBuild sampleApp = ([], Ret srv) /\
    let s := ServeHTTP srv (get "/api/echo") idle in
    gin.status (gin.Writer s.1) = 404 /\ invoked s.2 = [].
Proof.
  eexists. split; [reflexivity|].
  destruct (api_path_other_method_is_404 sampleDecoder noAuthConfigured sampleBuild
              sampleApp [] _ (get "/api/echo") idle eq_refl ltac:(discriminate)
              (or_introl eq_refl)) as (Hs & _ & Hi).
  split; [exact Hs|exact Hi].
Defined.

(** ** Counting samples over many requests *)




(** ** The dispatcher on a body that decodes *)

(** X19: on a body that decodes to [m], a handler that returns no error
    is called exactly once, on [m]; the answer is status 200 with the
    handler's result as the one document ([null] for a nil map), and
    nothing is recorded as an error on the context. *)
Theorem wrapAPICall_success
    (decodeJSON : string -> gmap string any + error) (fn : apiHandler)
    (r : gin.Request) (w : World) (m : gmap string any)
    (obj : option (gmap string any)) :
  decodeJSON (gin.Body r) = inl m ->
  fn m = (obj, None) ->
  let s := gin.Next [wrapAPICall decodeJSON fn] (gin.fresh r, w) in
  gin.status (gin.Writer s.1) = 200 /\
  gin.body (gin.Writer s.1) = [ofMap obj] /\
  (obj = None -> gin.body (gin.Writer s.1) = [ANil]) /\
  gin.Errors s.1 = [] /\
  gin.aborted s.1 = false /\
  invoked s.2 = invoked w ++ [m].
Proof.
  intros Hd Hfn s. subst s.
  rewrite (wrapAPICall_decoded decodeJSON fn _ _ m) by done.
  unfold outcomeCode, outcomeDoc. rewrite Hfn. simpl.
  split_and!; try done. by intros ->.
Qed.

Lemma wrapAPICall_success_witness :
  gin.body (gin.Writer (gin.Next [wrapAPICall sampleDecoder nilResult]
                                 (gin.fresh (post "/api/x" "{}"), idle)).1)
  = [ANil].
Proof.
  destruct (wrapAPICall_success sampleDecoder nilResult (post "/api/x" "{}") idle ∅ None
              eq_refl eq_refl) as (_ & _ & Hn & _).
  by apply Hn.
Defined.

(** ** The dependency error counter *)


